(** * Announcements router of the High School Management System API

    A shallow embedding of [src/backend/routers/announcements.py] and the
    properties of its five endpoints.

    The router talks to three collaborators that live outside the file:
    the Python standard library ([datetime]), the [bson] package
    ([ObjectId]) and two MongoDB collections.  Each of them is modelled in
    a module of its own below, from its documented behaviour; the
    endpoints themselves are transcribed from the Python source, statement
    by statement, in [Module Router].

    A Python [str] is a [string] here, compared byte by byte, which is the
    order of code points on the ASCII strings the router handles.  The
    clock ([datetime.utcnow()]) and the identifier the driver gives to a
    new document are arguments of the endpoints that use them; the two
    collections are passed in and, where they change, returned. *)

From Stdlib Require Import List String Ascii Arith NArith Bool Lia.
From Stdlib Require Import Sorted Permutation.
Import ListNotations.

Local Open Scope string_scope.
Local Open Scope nat_scope.

(** ** Python values *)

(** Truthiness of a [str] and of an [Optional[str]]: [None] and the empty
    string are falsy, every other string is truthy. *)
Definition truthy_str (s : string) : bool := negb (String.eqb s EmptyString).

Definition truthy (o : option string) : bool :=
  match o with
  | Some s => truthy_str s
  | None => false
  end.

(** Exceptions that leave an endpoint.  [ValueError] never does: the two
    places that can raise it sit inside a [try] that turns it into an
    [HTTPException]. *)
Inductive exn : Type :=
| HTTPException (status_code : nat) (detail : string)
| DuplicateKeyError
| TypeError.

Inductive outcome (A : Type) : Type :=
| Return (a : A)
| Raise (e : exn).

Arguments Return {A} a.
Arguments Raise {A} e.

(** ** [datetime]: calendar dates, parsing and formatting *)

Module Datetime.

Local Open Scope N_scope.

Record date : Type := mkdate { year : N; month : N; day : N }.

Record datetime : Type := mkdatetime {
  dt_date : date;
  hour : N;
  minute : N;
  second : N;
  microsecond : N
}.

Definition is_leap (y : N) : bool :=
  (y mod 4 =? 0) && (negb (y mod 100 =? 0) || (y mod 400 =? 0)).

Definition days_in_month (y m : N) : N :=
  match m with
  | 2 => if is_leap y then 29 else 28
  | 4 | 6 | 9 | 11 => 30
  | _ => 31
  end.

(** The range check of the [date] constructor. *)
Definition valid_date (d : date) : bool :=
  (1 <=? year d) && (year d <=? 9999) &&
  (1 <=? month d) && (month d <=? 12) &&
  (1 <=? day d) && (day d <=? days_in_month (year d) (month d)).

Definition valid_time (h m s us : N) : bool :=
  (h <? 24) && (m <? 60) && (s <? 60) && (us <? 1000000).

(** Ordering of dates: year, then month, then day. *)
Definition date_compare (a b : date) : comparison :=
  match year a ?= year b with
  | Eq => match month a ?= month b with
          | Eq => day a ?= day b
          | c => c
          end
  | c => c
  end.

(** [a > b] on [date] objects. *)
Definition date_gt (a b : date) : bool :=
  match date_compare a b with Gt => true | _ => false end.

Definition date_le (a b : date) : Prop := date_gt a b = false.

(** *** Reading decimal fields *)

Definition digit_of (c : ascii) : option N :=
  let n := N_of_ascii c in
  if (48 <=? n) && (n <=? 57) then Some (n - 48) else None.

(** Reads exactly [num_digits] decimal digits, accumulating into [var];
    returns the value and the rest of the string. *)
Fixpoint parse_digits (num_digits : nat) (s : string) (var : N)
  : option (N * string) :=
  match num_digits with
  | O => Some (var, s)
  | S k =>
      match s with
      | String c s' =>
          match digit_of c with
          | Some d => parse_digits k s' (var * 10 + d)
          | None => None
          end
      | EmptyString => None
      end
  end.

Definition expect (c : ascii) (s : string) : option string :=
  match s with
  | String c' s' => if Ascii.eqb c c' then Some s' else None
  | EmptyString => None
  end.

Notation "x <- e ;; k" :=
  (match e with Some x => k | None => None end)
    (at level 61, e at next level, right associativity).
Notation "' p <- e ;; k" :=
  (match e with Some p => k | None => None end)
    (at level 61, p pattern, e at next level, right associativity).

(** [YYYY-MM-DD] at the head of the string; the fields are not yet
    range-checked. *)
Definition parse_isoformat_date (s : string) : option (date * string) :=
  '(y, s) <- parse_digits 4 s 0 ;;
  s <- expect "-" s ;;
  '(m, s) <- parse_digits 2 s 0 ;;
  s <- expect "-" s ;;
  '(d, s) <- parse_digits 2 s 0 ;;
  Some (mkdate y m d, s).

(** An optional [.fff[fff]]: milliseconds or microseconds. *)
Definition parse_fraction (s : string) : option (N * string) :=
  match s with
  | String "." s1 =>
      '(ms, s2) <- parse_digits 3 s1 0 ;;
      match parse_digits 3 s2 ms with
      | Some (us, s3) => Some (us, s3)
      | None => Some (ms * 1000, s2)
      end
  | _ => Some (0, s)
  end.

(** [HH[:MM[:SS[.fff[fff]]]]]; returns hour, minute, second,
    microsecond and the rest of the string. *)
Definition parse_hh_mm_ss_ff (s : string)
  : option (N * N * N * N * string) :=
  '(h, s1) <- parse_digits 2 s 0 ;;
  match s1 with
  | String ":" s2 =>
      '(m, s3) <- parse_digits 2 s2 0 ;;
      match s3 with
      | String ":" s4 =>
          '(sec, s5) <- parse_digits 2 s4 0 ;;
          '(us, s6) <- parse_fraction s5 ;;
          Some (h, m, sec, us, s6)
      | _ => Some (h, m, 0, 0, s3)
      end
  | _ => Some (h, 0, 0, 0, s1)
  end.

(** An optional UTC offset [+HH:MM[:SS[.ffffff]]] (or with [-]) that
    must reach the end of the string and stay strictly within a day.
    Only its well-formedness matters here: [.date()] drops it. *)
Definition parse_utc_offset (s : string) : option unit :=
  match s with
  | EmptyString => Some tt
  | String sign s1 =>
      if Ascii.eqb sign "+" || Ascii.eqb sign "-" then
        '(h, s2) <- parse_digits 2 s1 0 ;;
        s3 <- expect ":" s2 ;;
        '(m, s4) <- parse_digits 2 s3 0 ;;
        '(sec, s5) <-
           match s4 with
           | String ":" s4' =>
               '(sec, s5) <- parse_digits 2 s4' 0 ;;
               match s5 with
               | String "." s5' =>
                   '(_, s6) <- parse_digits 6 s5' 0 ;; Some (sec, s6)
               | _ => Some (sec, s5)
               end
           | _ => Some (0, s4)
           end ;;
        match s5 with
        | EmptyString =>
            if h * 3600 + m * 60 + sec <? 86400 then Some tt else None
        | _ => None
        end
      else None
  end.

(** The separator between date and time is one character of the [str]:
    one byte here when it is ASCII, and the two, three or four bytes of
    its UTF-8 encoding otherwise.  [continuation_bytes] counts the bytes
    that follow the first one. *)
Definition continuation_bytes (lead : ascii) : nat :=
  let n := N_of_ascii lead in
  if n <? 128 then 0%nat
  else if 240 <=? n then 3%nat
  else if 224 <=? n then 2%nat
  else 1%nat.

Fixpoint skip_bytes (k : nat) (s : string) : string :=
  match k, s with
  | S k', String _ s' => skip_bytes k' s'
  | _, _ => s
  end.

(** [datetime.fromisoformat], on the grammar the library has documented
    for it since the function exists:
    [YYYY-MM-DD[*HH[:MM[:SS[.fff[fff]]]][+HH:MM[:SS[.ffffff]]]]], where
    [*] is any single character.  [None] stands for [ValueError].

    This is a lower bound of the library: a string read here is read by
    every release, as the same day; later releases read further ISO 8601
    spellings (dates without hyphens, week dates) that are refused here.
    The properties stated of the endpoints therefore use this function
    in two ways only: they assume that it reads a string, or they assume
    of a string that it does not begin with four decimal digits, which
    every release refuses.  None of them rests on any other refusal; the
    auxiliary lemmas about [validate_dates] speak of this function as it
    is written here. *)
Definition fromisoformat (date_string : string) : option datetime :=
  '(d, s) <- parse_isoformat_date date_string ;;
  if valid_date d then
    match s with
    | EmptyString => Some (mkdatetime d 0 0 0 0)
    | String sep rest =>
        let tstr := skip_bytes (continuation_bytes sep) rest in
        '(h, m, sec, us, s') <- parse_hh_mm_ss_ff tstr ;;
        _ <- parse_utc_offset s' ;;
        if valid_time h m sec us then Some (mkdatetime d h m sec us)
        else None
    end
  else None.

(** [datetime.fromisoformat(s).date()], as the router uses it. *)
Definition fromisoformat_date (date_string : string) : option date :=
  option_map dt_date (fromisoformat date_string).

(** What the specification calls an ISO calendar date: exactly
    [YYYY-MM-DD], naming a day that exists. *)
Definition iso_calendar_date (s : string) : option date :=
  match parse_isoformat_date s with
  | Some (d, EmptyString) => if valid_date d then Some d else None
  | _ => None
  end.

(** *** Writing decimal fields *)

Definition digit_char (n : N) : ascii := ascii_of_N (48 + n mod 10).

(** The last [width] decimal digits of [n] in front of [acc]: [%0<width>d]
    for the values a valid date or time holds. *)
Fixpoint zero_pad (width : nat) (n : N) (acc : string) : string :=
  match width with
  | O => acc
  | S w => zero_pad w (n / 10) (String (digit_char n) acc)
  end.

(** [date.isoformat()]. *)
Definition date_isoformat_app (d : date) (rest : string) : string :=
  zero_pad 4 (year d)
    (String "-" (zero_pad 2 (month d)
       (String "-" (zero_pad 2 (day d) rest)))).

Definition date_isoformat (d : date) : string :=
  date_isoformat_app d EmptyString.

(** [datetime.isoformat()] of a naive datetime: the microseconds are
    written only when they are not zero. *)
Definition isoformat (t : datetime) : string :=
  date_isoformat_app (dt_date t)
    (String "T" (zero_pad 2 (hour t)
       (String ":" (zero_pad 2 (minute t)
          (String ":" (zero_pad 2 (second t)
             (if microsecond t =? 0 then EmptyString
              else String "."
                     (zero_pad 6 (microsecond t) EmptyString)))))))).

(** [datetime.date()]. *)
Definition date_of (t : datetime) : date := dt_date t.

Definition valid_datetime (t : datetime) : bool :=
  valid_date (dt_date t) &&
  valid_time (hour t) (minute t) (second t) (microsecond t).

End Datetime.


(** ** [bson]: object identifiers *)

Module Bson.

Local Open Scope N_scope.

(** The binary value of an [ObjectId]; the driver generates twelve
    bytes. *)
Definition oid : Type := list Byte.byte.

Fixpoint oid_eqb (a b : oid) : bool :=
  match a, b with
  | [], [] => true
  | x :: a', y :: b' => Byte.eqb x y && oid_eqb a' b'
  | _, _ => false
  end.

Definition hex_value (c : ascii) : option N :=
  let n := N_of_ascii c in
  if (48 <=? n) && (n <=? 57) then Some (n - 48)
  else if (97 <=? n) && (n <=? 102) then Some (n - 87)
  else if (65 <=? n) && (n <=? 70) then Some (n - 55)
  else None.

Definition is_space (c : ascii) : bool :=
  let n := N_of_ascii c in (n =? 32) || ((9 <=? n) && (n <=? 13)).

(** [bytes.fromhex]: pairs of hexadecimal digits, white space allowed
    between the pairs. *)
Fixpoint fromhex (s : string) : option (list Byte.byte) :=
  match s with
  | EmptyString => Some []
  | String c s' =>
      if is_space c then fromhex s'
      else
        match s' with
        | String d s'' =>
            match hex_value c, hex_value d with
            | Some h, Some l =>
                option_map (cons (byte_of_ascii (ascii_of_N (16 * h + l))))
                           (fromhex s'')
            | _, _ => None
            end
        | EmptyString => None
        end
  end.

(** [ObjectId(oid)] on a [str]: twenty-four characters that
    [bytes.fromhex] reads; [None] stands for [InvalidId]. *)
Definition ObjectId (s : string) : option oid :=
  if Nat.eqb (String.length s) 24 then fromhex s else None.

Definition hex_char (n : N) : ascii :=
  if n <? 10 then ascii_of_N (48 + n) else ascii_of_N (87 + n).

Definition hexlify_byte (b : Byte.byte) (rest : string) : string :=
  let n := Byte.to_N b in
  String (hex_char (n / 16)) (String (hex_char (n mod 16)) rest).

(** [str(oid)]: lower-case hexadecimal. *)
Definition str (o : oid) : string := fold_right hexlify_byte EmptyString o.

End Bson.

(** ** Announcement documents *)

(** One record for the stored document ([_id] an [ObjectId]) and for the
    dictionary an endpoint returns ([_id] a string).  [start_date] is
    [None] for a JSON null; [created_by] holds the [teacher_username]
    parameter as it was received. *)
Record announcement (Id : Type) : Type := mk_announcement {
  _id : Id;
  message : string;
  start_date : option string;
  expiration_date : string;
  created_by : option string;
  created_at : string
}.

Arguments mk_announcement {Id}.
Arguments _id {Id}.
Arguments message {Id}.
Arguments start_date {Id}.
Arguments expiration_date {Id}.
Arguments created_by {Id}.
Arguments created_at {Id}.

Definition document : Type := announcement Bson.oid.
Definition response : Type := announcement string.

(** [announcement["_id"] = str(announcement["_id"])]. *)
Definition stringify_id (a : document) : response :=
  mk_announcement (Bson.str (_id a)) (message a) (start_date a)
                  (expiration_date a) (created_by a) (created_at a).

(** ** The MongoDB collections *)

Module Mongo.

(** The announcements collection, in insertion order. *)
Definition collection : Type := list document.

Definition has_id (o : Bson.oid) (d : document) : bool :=
  Bson.oid_eqb (_id d) o.

(** [find(query)]. *)
Definition find (query : document -> bool) (c : collection)
  : list document :=
  filter query c.

(** [cursor.sort(key, -1)] on a string field: descending, by the binary
    order of strings.  The server does not promise an order among equal
    keys; no statement below depends on the one chosen here. *)
Fixpoint insert_desc (key : document -> string) (d : document)
         (l : list document) : list document :=
  match l with
  | [] => [d]
  | x :: l' =>
      if String.leb (key x) (key d) then d :: l
      else x :: insert_desc key d l'
  end.

Definition sort_desc (key : document -> string) (l : list document)
  : list document :=
  fold_right (insert_desc key) [] l.

(** [find_one({"_id": o})]. *)
Definition find_one (o : Bson.oid) (c : collection) : option document :=
  List.find (has_id o) c.

(** [insert_one(doc)]: the unique index on [_id] refuses a duplicate. *)
Definition insert_one (d : document) (c : collection)
  : outcome collection :=
  match find_one (_id d) c with
  | Some _ => Raise DuplicateKeyError
  | None => Return (c ++ [d])%list
  end.

Record UpdateResult : Type := mk_UpdateResult {
  matched_count : nat;
  modified_count : nat
}.

Definition option_string_eqb (a b : option string) : bool :=
  match a, b with
  | Some x, Some y => String.eqb x y
  | None, None => true
  | _, _ => false
  end.

(** The three fields a [$set] of this router writes. *)
Record update_data : Type := mk_update_data {
  set_message : string;
  set_start_date : option string;
  set_expiration_date : string
}.

Definition apply_set (u : update_data) (d : document) : document :=
  mk_announcement (_id d) (set_message u) (set_start_date u)
                  (set_expiration_date u) (created_by d) (created_at d).

Definition same_fields (u : update_data) (d : document) : bool :=
  String.eqb (message d) (set_message u) &&
  option_string_eqb (start_date d) (set_start_date u) &&
  String.eqb (expiration_date d) (set_expiration_date u).

(** [update_one({"_id": o}, {"$set": u})]: the first document with that
    identifier is rewritten; it counts as modified when a field
    changed. *)
Fixpoint update_one (o : Bson.oid) (u : update_data) (c : collection)
  : UpdateResult * collection :=
  match c with
  | [] => (mk_UpdateResult 0 0, [])
  | d :: c' =>
      if has_id o d then
        (mk_UpdateResult 1 (if same_fields u d then 0 else 1),
         apply_set u d :: c')
      else
        let (r, c'') := update_one o u c' in (r, d :: c'')
  end.

(** [delete_one({"_id": o})]: returns [deleted_count] and what is
    left. *)
Fixpoint delete_one (o : Bson.oid) (c : collection) : nat * collection :=
  match c with
  | [] => (0, [])
  | d :: c' =>
      if has_id o d then (1, c')
      else let (n, c'') := delete_one o c' in (n, d :: c'')
  end.

(** The teachers collection, as the [_id] of each teacher document: the
    router only asks whether a document with a given [_id] exists.
    [find_one({"_id": None})] matches nothing. *)
Definition teachers : Type := list string.

Definition find_one_teacher (key : option string) (t : teachers)
  : option string :=
  match key with
  | Some u => List.find (String.eqb u) t
  | None => None
  end.

End Mongo.

(** ** The endpoints *)

Module Router.

Import Datetime.

(** The two collections the module imports from [..database]. *)
Record database : Type := mk_database {
  announcements_collection : Mongo.collection;
  teachers_collection : Mongo.teachers
}.

Definition with_announcements (db : database) (c : Mongo.collection)
  : database :=
  mk_database c (teachers_collection db).

(** [a > b] on [str]. *)
Definition str_gt (a b : string) : bool := String.ltb b a.

(** [a >= b] on [str], the [$gte] of a query. *)
Definition str_gte (a b : string) : bool := String.leb b a.

(** [start_date and start_date > current_date]. *)
Definition starts_in_future (start_date : option string)
           (current_date : string) : bool :=
  match start_date with
  | Some s => truthy_str s && str_gt s current_date
  | None => false
  end.

(** [GET /announcements/active].  [utcnow] is the value of
    [datetime.utcnow()] at the call. *)
Definition get_active_announcements (utcnow : datetime) (db : database)
  : list response :=
  let current_date := date_isoformat (date_of utcnow) in
  let query := fun a : document =>
                 str_gte (expiration_date a) current_date in
  fold_left
    (fun announcements announcement =>
       if starts_in_future (start_date announcement) current_date
       then announcements
       else (announcements ++ [stringify_id announcement])%list)
    (Mongo.sort_desc created_at
       (Mongo.find query (announcements_collection db)))
    [].

(** [GET /announcements]. *)
Definition get_all_announcements (db : database)
           (teacher_username : option string)
  : outcome (list response) :=
  if negb (truthy teacher_username) then
    Raise (HTTPException 401 "Authentication required for this action")
  else
    match Mongo.find_one_teacher teacher_username
                                 (teachers_collection db) with
    | None => Raise (HTTPException 401 "Invalid teacher credentials")
    | Some _ =>
        Return
          (fold_left
             (fun announcements announcement =>
                (announcements ++ [stringify_id announcement])%list)
             (Mongo.sort_desc created_at
                (Mongo.find (fun _ => true) (announcements_collection db)))
             [])
    end.

(** The [try] block shared, word for word, by create and update:
    [None] when it falls through, the [HTTPException] otherwise.  A
    [ValueError] of either [fromisoformat] is caught and becomes the
    format error; the ordering error is raised inside the [try] but is no
    [ValueError], so it passes. *)
Definition validate_dates (expiration_date : string)
           (start_date : option string) : option exn :=
  match fromisoformat_date expiration_date with
  | None =>
      Some (HTTPException 400 "Invalid date format. Use YYYY-MM-DD")
  | Some exp_date =>
      match start_date with
      | Some s =>
          if truthy_str s then
            match fromisoformat_date s with
            | None =>
                Some (HTTPException 400
                        "Invalid date format. Use YYYY-MM-DD")
            | Some st_date =>
                if date_gt st_date exp_date then
                  Some (HTTPException 400
                          "Start date cannot be after expiration date")
                else None
            end
          else None
      | None => None
      end
  end.

(** [POST /announcements].  [inserted_id] is the identifier the driver
    generates for the new document. *)
Definition create_announcement (utcnow : datetime) (inserted_id : Bson.oid)
           (db : database) (message expiration_date : string)
           (start_date teacher_username : option string)
  : outcome response * database :=
  if negb (truthy teacher_username) then
    (Raise (HTTPException 401 "Authentication required for this action"),
     db)
  else
    match Mongo.find_one_teacher teacher_username
                                 (teachers_collection db) with
    | None => (Raise (HTTPException 401 "Invalid teacher credentials"), db)
    | Some _ =>
        if negb (truthy_str expiration_date) then
          (Raise (HTTPException 400 "Expiration date is required"), db)
        else
          match validate_dates expiration_date start_date with
          | Some e => (Raise e, db)
          | None =>
              let announcement :=
                mk_announcement inserted_id message start_date
                                expiration_date teacher_username
                                (isoformat utcnow) in
              match Mongo.insert_one announcement
                                     (announcements_collection db) with
              | Raise e => (Raise e, db)
              | Return c =>
                  (Return (stringify_id announcement),
                   with_announcements db c)
              end
          end
    end.

(** [PUT /announcements/{announcement_id}]. *)
Definition update_announcement (db : database)
           (announcement_id message expiration_date : string)
           (start_date teacher_username : option string)
  : outcome response * database :=
  if negb (truthy teacher_username) then
    (Raise (HTTPException 401 "Authentication required for this action"),
     db)
  else
    match Mongo.find_one_teacher teacher_username
                                 (teachers_collection db) with
    | None => (Raise (HTTPException 401 "Invalid teacher credentials"), db)
    | Some _ =>
        match Bson.ObjectId announcement_id with
        | None => (Raise (HTTPException 400 "Invalid announcement ID"), db)
        | Some obj_id =>
            match Mongo.find_one obj_id (announcements_collection db) with
            | None =>
                (Raise (HTTPException 404 "Announcement not found"), db)
            | Some _ =>
                match validate_dates expiration_date start_date with
                | Some e => (Raise e, db)
                | None =>
                    let update_data :=
                      Mongo.mk_update_data message start_date
                                           expiration_date in
                    let (result, c) :=
                      Mongo.update_one obj_id update_data
                                       (announcements_collection db) in
                    let db' := with_announcements db c in
                    if Nat.eqb (Mongo.modified_count result) 0
                       && Nat.eqb (Mongo.matched_count result) 0
                    then
                      (Raise (HTTPException 500
                                "Failed to update announcement"), db')
                    else
                      match Mongo.find_one obj_id c with
                      | None => (Raise TypeError, db')
                      | Some updated => (Return (stringify_id updated), db')
                      end
                end
            end
        end
    end.

(** [DELETE /announcements/{announcement_id}]; the dictionary it returns
    has the one key [message], whose value is returned here. *)
Definition delete_announcement (db : database) (announcement_id : string)
           (teacher_username : option string)
  : outcome string * database :=
  if negb (truthy teacher_username) then
    (Raise (HTTPException 401 "Authentication required for this action"),
     db)
  else
    match Mongo.find_one_teacher teacher_username
                                 (teachers_collection db) with
    | None => (Raise (HTTPException 401 "Invalid teacher credentials"), db)
    | Some _ =>
        match Bson.ObjectId announcement_id with
        | None => (Raise (HTTPException 400 "Invalid announcement ID"), db)
        | Some obj_id =>
            let (deleted_count, c) :=
              Mongo.delete_one obj_id (announcements_collection db) in
            if Nat.eqb deleted_count 0 then
              (Raise (HTTPException 404 "Announcement not found"),
               with_announcements db c)
            else
              (Return "Announcement deleted successfully",
               with_announcements db c)
        end
    end.

End Router.

(** * Properties *)

Import Datetime Router.

(** ** Vocabulary of the statements *)

(** The two authorization errors and the other errors of the router. *)
Definition authentication_required : exn :=
  HTTPException 401 "Authentication required for this action".
Definition invalid_credentials : exn :=
  HTTPException 401 "Invalid teacher credentials".
Definition invalid_id : exn := HTTPException 400 "Invalid announcement ID".
Definition not_found : exn := HTTPException 404 "Announcement not found".
Definition invalid_date_format : exn :=
  HTTPException 400 "Invalid date format. Use YYYY-MM-DD".
Definition start_after_expiration : exn :=
  HTTPException 400 "Start date cannot be after expiration date".
Definition expiration_required : exn :=
  HTTPException 400 "Expiration date is required".

(** The caller names a teacher of the directory. *)
Definition recognized (db : database) (teacher_username : option string)
  : Prop :=
  exists u, teacher_username = Some u /\ u <> EmptyString /\
            In u (teachers_collection db).

(** Why a caller is turned away, and with which error. *)
Inductive denied (db : database) : option string -> exn -> Prop :=
| denied_absent : forall teacher_username,
    teacher_username = None \/ teacher_username = Some EmptyString ->
    denied db teacher_username authentication_required
| denied_unknown : forall u,
    u <> EmptyString -> ~ In u (teachers_collection db) ->
    denied db (Some u) invalid_credentials.

(** No stored announcement carries the identifier [o]. *)
Definition no_match (o : Bson.oid) (c : Mongo.collection) : Prop :=
  forall d, In d c -> _id d <> o.

(** The date fields of a document are typed as the data model has them:
    the expiration date is an ISO calendar date, and so is the start date
    when there is one. *)
Definition well_dated (d : document) : Prop :=
  (exists de, iso_calendar_date (expiration_date d) = Some de) /\
  match start_date d with
  | Some s => exists ds, iso_calendar_date s = Some ds
  | None => True
  end.

(** The window of a document contains the day [today]: the expiration
    date is [today] or later, and the start date, when there is one, is
    [today] or earlier. *)
Definition in_window (today : date) (d : document) : Prop :=
  (exists de, iso_calendar_date (expiration_date d) = Some de /\
              date_le today de) /\
  match start_date d with
  | Some s => exists ds, iso_calendar_date s = Some ds /\ date_le ds today
  | None => True
  end.

(** The dates of a request pass the validation of create and update: the
    expiration date is read by the parser, and the start date is absent,
    empty, or read by the parser as a day not after the expiration. *)
Definition dates_accepted (expiration_date : string)
           (start_date : option string) : Prop :=
  exists de,
    fromisoformat_date expiration_date = Some de /\
    match start_date with
    | Some s =>
        s = EmptyString \/
        exists ds, fromisoformat_date s = Some ds /\ date_le ds de
    | None => True
    end.

(** The document create stores, and the one update leaves behind. *)
Definition created_document (utcnow : datetime) (inserted_id : Bson.oid)
           (message expiration_date : string)
           (start_date teacher_username : option string) : document :=
  mk_announcement inserted_id message start_date expiration_date
                  teacher_username (isoformat utcnow).

Definition updated_document (d : document) (message expiration_date : string)
           (start_date : option string) : document :=
  mk_announcement (_id d) message start_date expiration_date
                  (created_by d) (created_at d).


(** The cursor [get_active_announcements] keeps. *)
Definition active_cursor (utcnow : datetime) (db : database)
  : list document :=
  filter (fun a => negb (starts_in_future
                           (start_date a)
                           (date_isoformat (date_of utcnow))))
         (Mongo.sort_desc created_at
            (Mongo.find
               (fun a => str_gte (expiration_date a)
                                 (date_isoformat (date_of utcnow)))
               (announcements_collection db))).


(** Sample data for the examples: a directory with the teacher [t1], a
    clock, an identifier and a stored announcement. *)
Definition staff_only : database := mk_database [] ["t1"].

Definition morning : datetime := mkdatetime (mkdate 2025 6 1) 9 5 3 17.

Definition oid_a : Bson.oid :=
  [Byte.x01; Byte.x23; Byte.x45; Byte.x67; Byte.x89; Byte.xab;
   Byte.xcd; Byte.xef; Byte.x01; Byte.x23; Byte.x45; Byte.x67].

Definition exam : document :=
  mk_announcement oid_a "Exam Friday" (Some "2025-05-20") "2025-12-31"
                  (Some "t1") "2025-05-19T08:00:00".

Definition one_announcement : database := mk_database [exam] ["t1"].

(** The string does not begin with four decimal digits, the year every
    spelling of an ISO 8601 date starts with; ["not-a-date"], the empty
    string and ["31/12/2025"] are such strings. *)
Definition lacks_year (s : string) : Prop := parse_digits 4 s 0 = None.


(** No two stored announcements carry the same identifier. *)
Definition unique_ids (c : Mongo.collection) : Prop := NoDup (map _id c).

(** The errors each mutating endpoint raises on purpose. *)
Definition create_errors : list exn :=
  [authentication_required; invalid_credentials; expiration_required;
   invalid_date_format; start_after_expiration].

Definition update_errors : list exn :=
  [authentication_required; invalid_credentials; invalid_id; not_found;
   invalid_date_format; start_after_expiration].

Definition delete_errors : list exn :=
  [authentication_required; invalid_credentials; invalid_id; not_found].

(** Order of two clock readings: the day, then the time of day. *)
Definition datetime_compare (a b : datetime) : comparison :=
  match date_compare (dt_date a) (dt_date b) with
  | Eq =>
      match (hour a ?= hour b)%N with
      | Eq =>
          match (minute a ?= minute b)%N with
          | Eq =>
              match (second a ?= second b)%N with
              | Eq => (microsecond a ?= microsecond b)%N
              | c => c
              end
          | c => c
          end
      | c => c
      end
  | c => c
  end.

(** A second stored announcement and a store with both. *)
Definition oid_b : Bson.oid :=
  [Byte.xfe; Byte.xdc; Byte.xba; Byte.x98; Byte.x76; Byte.x54;
   Byte.x32; Byte.x10; Byte.xfe; Byte.xdc; Byte.xba; Byte.x98].

Definition fair : document :=
  mk_announcement oid_b "Science fair" None "2025-06-01"
                  (Some "t1") "2025-05-30T16:30:00".

Definition two_announcements : database := mk_database [exam; fair] ["t1"].

(** ** Basic facts about the collaborators *)

Lemma truthy_str_true (s : string) : s <> EmptyString -> truthy_str s = true.
Proof.
  intros H. unfold truthy_str.
  destruct (String.eqb_spec s EmptyString); [contradiction | reflexivity].
Qed.

Lemma truthy_str_false (s : string) : truthy_str s = false -> s = EmptyString.
Proof.
  unfold truthy_str.
  destruct (String.eqb_spec s EmptyString); [trivial | discriminate].
Qed.

Lemma find_one_teacher_in (u : string) (t : Mongo.teachers) :
  In u t -> Mongo.find_one_teacher (Some u) t = Some u.
Proof.
  simpl. induction t as [|x t IH]; simpl; [contradiction|].
  intros [->|H].
  - now rewrite String.eqb_refl.
  - destruct (String.eqb_spec u x) as [->|_]; auto.
Qed.

Lemma find_one_teacher_not_in (u : string) (t : Mongo.teachers) :
  ~ In u t -> Mongo.find_one_teacher (Some u) t = None.
Proof.
  simpl. induction t as [|x t IH]; simpl; [reflexivity|].
  intros H. destruct (String.eqb_spec u x) as [->|_].
  - exfalso. apply H. now left.
  - apply IH. intros Hin. apply H. now right.
Qed.

Lemma recognized_passes (db : database) (tu : option string) :
  recognized db tu ->
  truthy tu = true /\
  exists u, Mongo.find_one_teacher tu (teachers_collection db) = Some u.
Proof.
  intros (u & -> & Hne & Hin). split.
  - now apply truthy_str_true.
  - exists u. now apply find_one_teacher_in.
Qed.

Lemma t1_recognized (c : Mongo.collection) :
  recognized (mk_database c ["t1"]) (Some "t1").
Proof. exists "t1". repeat split; [discriminate | now left]. Qed.

Lemma recognized_truthy (db : database) (tu : option string) :
  recognized db tu -> truthy tu = false -> False.
Proof.
  intros H Hf. apply recognized_passes in H. destruct H as [Ht _]. congruence.
Qed.

Lemma recognized_found (db : database) (tu : option string) :
  recognized db tu ->
  Mongo.find_one_teacher tu (teachers_collection db) = None -> False.
Proof.
  intros H Hf. apply recognized_passes in H. destruct H as (_ & u & Hu).
  congruence.
Qed.

Lemma denied_absent_falsy (tu : option string) :
  tu = None \/ tu = Some EmptyString -> truthy tu = false.
Proof. now intros [-> | ->]. Qed.

Lemma oid_eqb_eq (a b : Bson.oid) : Bson.oid_eqb a b = true <-> a = b.
Proof.
  revert b. induction a as [|x a IH]; intros [|y b]; simpl;
    try (split; [discriminate | congruence]); [tauto|].
  rewrite andb_true_iff, IH. split.
  - intros [Hxy ->]. now rewrite (Byte.byte_dec_bl _ _ Hxy).
  - intros [= -> ->]. split; [now apply Byte.byte_dec_lb | reflexivity].
Qed.

Lemma has_id_true (o : Bson.oid) (d : document) :
  Mongo.has_id o d = true <-> _id d = o.
Proof. apply oid_eqb_eq. Qed.

Lemma has_id_false (o : Bson.oid) (d : document) :
  Mongo.has_id o d = false <-> _id d <> o.
Proof.
  rewrite <- has_id_true. destruct (Mongo.has_id o d); split; congruence.
Qed.

Lemma find_one_none (o : Bson.oid) (c : Mongo.collection) :
  Mongo.find_one o c = None <-> no_match o c.
Proof.
  unfold Mongo.find_one, no_match. split.
  - intros H d Hin. apply has_id_false. exact (find_none _ _ H d Hin).
  - intros H. induction c as [|x c IH]; simpl; [reflexivity|].
    destruct (Mongo.has_id o x) eqn:E.
    + apply has_id_true in E. exfalso. apply (H x); [now left | exact E].
    + apply IH. intros d Hd. apply H. now right.
Qed.

(** The first document with identifier [o], and what surrounds it. *)
Lemma find_one_split (o : Bson.oid) (c : Mongo.collection) (d : document) :
  Mongo.find_one o c = Some d ->
  exists l1 l2, c = (l1 ++ d :: l2)%list /\ _id d = o /\ no_match o l1.
Proof.
  unfold Mongo.find_one. induction c as [|x c IH]; simpl; [discriminate|].
  destruct (Mongo.has_id o x) eqn:E.
  - intros [= ->]. exists [], c. repeat split.
    + now apply has_id_true.
    + intros ? [].
  - intros H. destruct (IH H) as (l1 & l2 & -> & Hid & Hno).
    exists (x :: l1), l2. repeat split; trivial.
    intros y [<-|Hy]; [now apply has_id_false | now apply Hno].
Qed.

Lemma find_one_app (o : Bson.oid) (l1 l2 : Mongo.collection) (d : document) :
  no_match o l1 -> _id d = o ->
  Mongo.find_one o (l1 ++ d :: l2)%list = Some d.
Proof.
  unfold Mongo.find_one. intros Hno Hid.
  induction l1 as [|x l1 IH]; simpl.
  - apply has_id_true in Hid. now rewrite Hid.
  - assert (E : Mongo.has_id o x = false)
      by (apply has_id_false, Hno; now left).
    rewrite E. apply IH. intros y Hy. apply Hno. now right.
Qed.

Lemma delete_one_no_match (o : Bson.oid) (c : Mongo.collection) :
  no_match o c -> Mongo.delete_one o c = (0, c).
Proof.
  induction c as [|x c IH]; simpl; intros H; [reflexivity|].
  assert (E : Mongo.has_id o x = false) by (apply has_id_false, H; now left).
  rewrite E, IH; [reflexivity|]. intros y Hy. apply H. now right.
Qed.

Lemma delete_one_app (o : Bson.oid) (l1 l2 : Mongo.collection)
      (d : document) :
  no_match o l1 -> _id d = o ->
  Mongo.delete_one o (l1 ++ d :: l2)%list = (1, (l1 ++ l2)%list).
Proof.
  intros Hno Hid. induction l1 as [|x l1 IH]; simpl.
  - apply has_id_true in Hid. now rewrite Hid.
  - assert (E : Mongo.has_id o x = false)
      by (apply has_id_false, Hno; now left).
    rewrite E, IH; [reflexivity|]. intros y Hy. apply Hno. now right.
Qed.

Lemma update_one_app (o : Bson.oid) (u : Mongo.update_data)
      (l1 l2 : Mongo.collection) (d : document) :
  no_match o l1 -> _id d = o ->
  Mongo.update_one o u (l1 ++ d :: l2)%list =
  (Mongo.mk_UpdateResult 1 (if Mongo.same_fields u d then 0 else 1),
   (l1 ++ Mongo.apply_set u d :: l2)%list).
Proof.
  intros Hno Hid. induction l1 as [|x l1 IH]; simpl.
  - apply has_id_true in Hid. now rewrite Hid.
  - assert (E : Mongo.has_id o x = false)
      by (apply has_id_false, Hno; now left).
    rewrite E, IH; [reflexivity|]. intros y Hy. apply Hno. now right.
Qed.

Lemma with_announcements_same (db : database) :
  with_announcements db (announcements_collection db) = db.
Proof. now destruct db. Qed.

(** Rewrites the two authorization tests of an endpoint for a recognized
    caller. *)
Ltac pass_authorization H :=
  let Ht := fresh "Htruthy" in
  let u := fresh "teacher" in
  let Hf := fresh "Hteacher" in
  destruct (recognized_passes _ _ H) as (Ht & u & Hf);
  rewrite ?Ht, ?Hf; simpl negb; cbv iota.

(** ** Authorization comes first *)

(** C2: in each of the four protected operations a caller without a
    teacher identifier is refused with the authentication-required error,
    and a caller whose identifier names no teacher with the distinct
    invalid-credentials error; whatever the other arguments are, that is
    the outcome, and the store is left as it was. *)
Theorem authorization_precedes_everything
        (db : database) (teacher_username : option string) (e : exn)
        (H : denied db teacher_username e) :
  authentication_required <> invalid_credentials /\
  get_all_announcements db teacher_username = Raise e /\
  (forall utcnow inserted_id message expiration_date start_date,
      create_announcement utcnow inserted_id db message expiration_date
                          start_date teacher_username = (Raise e, db)) /\
  (forall announcement_id message expiration_date start_date,
      update_announcement db announcement_id message expiration_date
                          start_date teacher_username = (Raise e, db)) /\
  (forall announcement_id,
      delete_announcement db announcement_id teacher_username
      = (Raise e, db)).
Proof.
  split; [discriminate|].
  destruct H as [tu Habsent | u Hne Hnotin].
  - apply denied_absent_falsy in Habsent.
    unfold get_all_announcements, create_announcement, update_announcement,
      delete_announcement.
    rewrite Habsent. repeat split.
  - pose proof (truthy_str_true u Hne) as Ht.
    pose proof (find_one_teacher_not_in u _ Hnotin) as Hf.
    unfold get_all_announcements, create_announcement, update_announcement,
      delete_announcement, truthy.
    rewrite Ht, Hf. repeat split.
Qed.

Lemma authorization_precedes_everything_witness :
  denied staff_only (Some "intruder") invalid_credentials /\
  delete_announcement staff_only "not an id" (Some "intruder")
  = (Raise invalid_credentials, staff_only).
Proof.
  assert (H : denied staff_only (Some "intruder") invalid_credentials).
  { apply denied_unknown; [discriminate|].
    simpl. intros [E|[]]. discriminate E. }
  split; [exact H|].
  apply (authorization_precedes_everything _ _ _ H).
Defined.

(** ** Delete *)

Lemma delete_announcement_no_match
      (db : database) (announcement_id : string)
      (teacher_username : option string) (o : Bson.oid) :
  recognized db teacher_username ->
  Bson.ObjectId announcement_id = Some o ->
  no_match o (announcements_collection db) ->
  delete_announcement db announcement_id teacher_username
  = (Raise not_found, db).
Proof.
  intros H Hid Hno. unfold delete_announcement. pass_authorization H.
  rewrite Hid, (delete_one_no_match _ _ Hno). simpl.
  now rewrite with_announcements_same.
Qed.

Lemma delete_announcement_match
      (db : database) (announcement_id : string)
      (teacher_username : option string) (o : Bson.oid)
      (l1 l2 : Mongo.collection) (d : document) :
  recognized db teacher_username ->
  Bson.ObjectId announcement_id = Some o ->
  announcements_collection db = (l1 ++ d :: l2)%list ->
  no_match o l1 -> _id d = o ->
  delete_announcement db announcement_id teacher_username
  = (Return "Announcement deleted successfully",
     with_announcements db (l1 ++ l2)%list).
Proof.
  intros H Hid Hc Hno Hd. unfold delete_announcement. pass_authorization H.
  rewrite Hid, Hc, (delete_one_app _ _ _ _ Hno Hd). reflexivity.
Qed.

(** C7: for an authorized caller and a well-formed identifier, delete
    fails with not-found exactly when no record carries the identifier, and
    then leaves the store as it was; otherwise it removes the first record
    with that identifier, nothing else, and returns the success message. *)
Theorem delete_not_found_iff_no_match
        (db : database) (announcement_id : string)
        (teacher_username : option string) (o : Bson.oid)
        (H : recognized db teacher_username)
        (Hid : Bson.ObjectId announcement_id = Some o) :
  (fst (delete_announcement db announcement_id teacher_username)
   = Raise not_found
   <-> no_match o (announcements_collection db)) /\
  (no_match o (announcements_collection db) ->
   delete_announcement db announcement_id teacher_username
   = (Raise not_found, db)) /\
  (forall d,
      In d (announcements_collection db) -> _id d = o ->
      exists l1 d' l2,
        announcements_collection db = (l1 ++ d' :: l2)%list /\
        _id d' = o /\ no_match o l1 /\
        delete_announcement db announcement_id teacher_username
        = (Return "Announcement deleted successfully",
           with_announcements db (l1 ++ l2)%list)).
Proof.
  assert (Hsome : forall d,
             In d (announcements_collection db) -> _id d = o ->
             exists l1 d' l2,
               announcements_collection db = (l1 ++ d' :: l2)%list /\
               _id d' = o /\ no_match o l1 /\
               delete_announcement db announcement_id teacher_username
               = (Return "Announcement deleted successfully",
                  with_announcements db (l1 ++ l2)%list)).
  { intros d Hin Hd.
    destruct (Mongo.find_one o (announcements_collection db)) as [d'|] eqn:E.
    - destruct (find_one_split _ _ _ E) as (l1 & l2 & Hc & Hd' & Hno).
      exists l1, d', l2. repeat split; trivial.
      now apply delete_announcement_match with (o := o) (d := d').
    - apply find_one_none in E. now elim (E d Hin). }
  split; [|split]; trivial.
  - split.
    + intros Hfst.
      destruct (Mongo.find_one o (announcements_collection db)) as [d|] eqn:E;
        [|now apply find_one_none].
      destruct (find_one_split _ _ _ E) as (l1 & l2 & Hc & Hd & Hno).
      destruct (Hsome d) as (? & ? & ? & _ & _ & _ & Heq); trivial.
      * rewrite Hc. apply in_elt.
      * rewrite Heq in Hfst. discriminate Hfst.
    + intros Hno.
      now rewrite (delete_announcement_no_match _ _ _ _ H Hid Hno).
  - now apply delete_announcement_no_match.
Qed.

Lemma delete_not_found_iff_no_match_witness :
  recognized one_announcement (Some "t1") /\
  Bson.ObjectId "0123456789abcdef01234567" = Some oid_a /\
  delete_announcement one_announcement "0123456789abcdef01234567"
                      (Some "t1")
  = (Return "Announcement deleted successfully", staff_only) /\
  delete_announcement staff_only "0123456789abcdef01234567" (Some "t1")
  = (Raise not_found, staff_only).
Proof.
  split; [apply t1_recognized|]. split; [reflexivity|]. split.
  - destruct (delete_not_found_iff_no_match
                one_announcement "0123456789abcdef01234567" (Some "t1")
                oid_a (t1_recognized [exam]) eq_refl) as (_ & _ & Hdel).
    destruct (Hdel exam (or_introl eq_refl) eq_refl)
      as (l1 & d' & l2 & Hc & _ & _ & Heq).
    rewrite Heq. destruct l1 as [|x l1].
    + injection Hc as _ <-. reflexivity.
    + destruct l1; discriminate Hc.
  - destruct (delete_not_found_iff_no_match
                staff_only "0123456789abcdef01234567" (Some "t1")
                oid_a (t1_recognized []) eq_refl) as (_ & Hnf & _).
    apply Hnf. intros d [].
Defined.

(** ** Date strings and their order *)

Lemma digit_of_code (c : ascii) (a : N) :
  digit_of c = Some a -> (N_of_ascii c = 48 + a /\ a < 10)%N.
Proof.
  unfold digit_of.
  destruct ((48 <=? N_of_ascii c)%N && (N_of_ascii c <=? 57)%N) eqn:E;
    [|discriminate].
  apply andb_true_iff in E. destruct E as [E1 E2].
  apply N.leb_le in E1, E2. intros [= <-]. lia.
Qed.

Lemma parse_digits_bounds (n : nat) :
  forall s v x r,
    parse_digits n s v = Some (x, r) ->
    (v * 10 ^ N.of_nat n <= x < (v + 1) * 10 ^ N.of_nat n)%N.
Proof.
  induction n as [|k IH]; intros s v x r.
  - simpl. intros [= -> _]. lia.
  - cbn [parse_digits]. destruct s as [|c s]; [discriminate|].
    destruct (digit_of c) as [a|] eqn:Ea; [|discriminate].
    intros Hp. apply digit_of_code in Ea. destruct Ea as [_ Ha].
    apply IH in Hp. rewrite Nat2N.inj_succ, N.pow_succ_r'.
    set (p := (10 ^ N.of_nat k)%N) in *. nia.
Qed.

(** Two fields of the same width, read from the same starting value,
    compare as strings the way their values compare as numbers. *)
Lemma parse_digits_compare (n : nat) :
  forall s1 s2 v x1 r1 x2 r2,
    parse_digits n s1 v = Some (x1, r1) ->
    parse_digits n s2 v = Some (x2, r2) ->
    String.compare s1 s2 =
    match (x1 ?= x2)%N with
    | Eq => String.compare r1 r2
    | c => c
    end.
Proof.
  induction n as [|k IH]; intros s1 s2 v x1 r1 x2 r2.
  - simpl. intros [= <- <-] [= <- <-]. now rewrite N.compare_refl.
  - cbn [parse_digits].
    destruct s1 as [|c1 s1]; [discriminate|].
    destruct s2 as [|c2 s2]; [discriminate|].
    destruct (digit_of c1) as [a1|] eqn:E1; [|discriminate].
    destruct (digit_of c2) as [a2|] eqn:E2; [|discriminate].
    apply digit_of_code in E1, E2.
    destruct E1 as [E1 B1], E2 as [E2 B2].
    intros H1 H2. cbn [String.compare]. unfold Ascii.compare.
    rewrite E1, E2.
    destruct (N.compare_spec (48 + a1) (48 + a2)) as [Heq|Hlt|Hgt].
    + assert (a1 = a2) by lia. subst a2. eapply IH; eassumption.
    + apply parse_digits_bounds in H1, H2.
      set (p := (10 ^ N.of_nat k)%N) in *.
      assert (Hx : (x1 < x2)%N) by nia.
      apply N.compare_lt_iff in Hx. now rewrite Hx.
    + apply parse_digits_bounds in H1, H2.
      set (p := (10 ^ N.of_nat k)%N) in *.
      assert (Hx : (x2 < x1)%N) by nia.
      apply N.compare_gt_iff in Hx. now rewrite Hx.
Qed.

Lemma expect_inv (c : ascii) (s r : string) :
  expect c s = Some r -> s = String c r.
Proof.
  destruct s as [|c' s]; simpl; [discriminate|].
  destruct (Ascii.eqb_spec c c') as [->|_]; [|discriminate].
  now intros [= ->].
Qed.

(** The shape of a string [parse_isoformat_date] reads. *)
Lemma parse_isoformat_date_inv (s : string) (d : date) (r : string) :
  parse_isoformat_date s = Some (d, r) ->
  exists s1 s2,
    parse_digits 4 s 0 = Some (year d, String "-" s1) /\
    parse_digits 2 s1 0 = Some (month d, String "-" s2) /\
    parse_digits 2 s2 0 = Some (day d, r).
Proof.
  unfold parse_isoformat_date.
  destruct (parse_digits 4 s 0) as [[y s1]|] eqn:Ey; [|discriminate].
  destruct (expect "-" s1) as [s2|] eqn:X1; [|discriminate].
  destruct (parse_digits 2 s2 0) as [[m s3]|] eqn:Em; [|discriminate].
  destruct (expect "-" s3) as [s4|] eqn:X2; [|discriminate].
  destruct (parse_digits 2 s4 0) as [[dd s5]|] eqn:Ed; [|discriminate].
  intros [= <- <-]. apply expect_inv in X1, X2. subst s1 s3.
  exists s2, s4. auto.
Qed.

Lemma iso_calendar_date_inv (s : string) (d : date) :
  iso_calendar_date s = Some d ->
  parse_isoformat_date s = Some (d, EmptyString) /\ valid_date d = true.
Proof.
  unfold iso_calendar_date.
  destruct (parse_isoformat_date s) as [[d' [|c r]]|]; try discriminate.
  destruct (valid_date d') eqn:V; [|discriminate].
  now intros [= <-].
Qed.

(** [date_le] is the calendar order: an earlier year, or the same year and
    an earlier month, or the same month and a day that is not later. *)
Lemma date_le_spec (a b : date) :
  date_le a b <->
  (year a < year b \/
   (year a = year b /\
    (month a < month b \/ (month a = month b /\ day a <= day b))))%N.
Proof.
  unfold date_le, date_gt, date_compare.
  destruct (N.compare_spec (year a) (year b));
    destruct (N.compare_spec (month a) (month b));
    destruct (N.compare_spec (day a) (day b));
    split; intros; try discriminate; try reflexivity; lia.
Qed.

(** For ISO calendar dates the order of the strings is the order of the
    days they name. *)
Lemma iso_compare (s1 s2 : string) (d1 d2 : date) :
  iso_calendar_date s1 = Some d1 ->
  iso_calendar_date s2 = Some d2 ->
  String.compare s1 s2 = date_compare d1 d2.
Proof.
  intros H1 H2.
  apply iso_calendar_date_inv in H1, H2.
  destruct H1 as [H1 _], H2 as [H2 _].
  apply parse_isoformat_date_inv in H1, H2.
  destruct H1 as (a1 & b1 & Y1 & M1 & D1), H2 as (a2 & b2 & Y2 & M2 & D2).
  unfold date_compare.
  rewrite (parse_digits_compare _ _ _ _ _ _ _ _ Y1 Y2).
  destruct (year d1 ?= year d2)%N; trivial.
  cbn [String.compare]. change (Ascii.compare "-" "-") with Eq. cbv iota.
  rewrite (parse_digits_compare _ _ _ _ _ _ _ _ M1 M2).
  destruct (month d1 ?= month d2)%N; trivial.
  cbn [String.compare]. change (Ascii.compare "-" "-") with Eq. cbv iota.
  rewrite (parse_digits_compare _ _ _ _ _ _ _ _ D1 D2).
  now destruct (day d1 ?= day d2)%N.
Qed.

(** The parser of the router reads every ISO calendar date, as that
    date. *)
Lemma fromisoformat_iso_calendar_date (s : string) (d : date) :
  iso_calendar_date s = Some d -> fromisoformat_date s = Some d.
Proof.
  intros H. apply iso_calendar_date_inv in H. destruct H as [Hp Hv].
  unfold fromisoformat_date, fromisoformat. now rewrite Hp, Hv.
Qed.

Lemma fromisoformat_date_empty : fromisoformat_date EmptyString = None.
Proof. reflexivity. Qed.

Lemma fromisoformat_date_truthy (s : string) (d : date) :
  fromisoformat_date s = Some d -> truthy_str s = true.
Proof. destruct s; [discriminate | reflexivity]. Qed.

Lemma digit_of_digit_char (n : N) : digit_of (digit_char n) = Some (n mod 10)%N.
Proof.
  unfold digit_of, digit_char.
  assert (Hm : (n mod 10 < 10)%N) by (apply N.mod_lt; discriminate).
  remember (n mod 10)%N as m eqn:Em. clear Em.
  rewrite N_ascii_embedding by lia.
  replace ((48 <=? 48 + m)%N) with true
    by (symmetry; apply N.leb_le; lia).
  replace ((48 + m <=? 57)%N) with true
    by (symmetry; apply N.leb_le; lia).
  simpl andb. cbv iota. f_equal. lia.
Qed.

Lemma parse_digits_S (k : nat) (c : ascii) (s : string) (v : N) :
  parse_digits (S k) (String c s) v =
  match digit_of c with
  | Some d => parse_digits k s (v * 10 + d)%N
  | None => None
  end.
Proof. reflexivity. Qed.

(** Reading one more digit, seen from the right-hand end. *)
Lemma parse_digits_snoc (k : nat) :
  forall s v,
    parse_digits (S k) s v =
    match parse_digits k s v with
    | Some (x, String c r) =>
        match digit_of c with
        | Some a => Some (x * 10 + a, r)%N
        | None => None
        end
    | _ => None
    end.
Proof.
  induction k as [|k IH]; intros s v.
  - simpl. destruct s as [|c r]; [reflexivity|].
    now destruct (digit_of c).
  - destruct s as [|c s']; [reflexivity|].
    rewrite (parse_digits_S (S k)), (parse_digits_S k).
    destruct (digit_of c) as [a|]; [apply IH | reflexivity].
Qed.

(** What [zero_pad] writes, [parse_digits] reads back. *)
Lemma parse_digits_zero_pad (w : nat) :
  forall x acc v,
    parse_digits w (zero_pad w x acc) v
    = Some (v * 10 ^ N.of_nat w + x mod 10 ^ N.of_nat w, acc)%N.
Proof.
  induction w as [|w IH]; intros x acc v.
  - simpl. rewrite N.mod_1_r. do 2 f_equal. lia.
  - rewrite parse_digits_snoc. cbn [zero_pad]. rewrite IH.
    rewrite digit_of_digit_char. do 2 f_equal.
    rewrite Nat2N.inj_succ, N.pow_succ_r'.
    rewrite (N.Div0.mod_mul_r x 10 (10 ^ N.of_nat w)). ring.
Qed.

Lemma days_in_month_le (y m : N) : (days_in_month y m <= 31)%N.
Proof.
  unfold days_in_month.
  destruct m as [|p]; [lia|].
  repeat (destruct p as [p|p|]; try lia); destruct (is_leap y); lia.
Qed.

Lemma valid_date_bounds (d : date) :
  valid_date d = true ->
  (1 <= year d <= 9999 /\ 1 <= month d <= 12 /\ 1 <= day d <= 31)%N.
Proof.
  unfold valid_date. rewrite !andb_true_iff, !N.leb_le.
  pose proof (days_in_month_le (year d) (month d)). lia.
Qed.

(** [date.isoformat()] of a valid date is an ISO calendar date, and names
    that date. *)
Lemma iso_calendar_date_isoformat (d : date) :
  valid_date d = true -> iso_calendar_date (date_isoformat d) = Some d.
Proof.
  intros V. pose proof (valid_date_bounds d V) as (Hy & Hm & Hd).
  unfold iso_calendar_date, date_isoformat, date_isoformat_app,
    parse_isoformat_date.
  rewrite parse_digits_zero_pad. cbn [expect].
  change (Ascii.eqb "-" "-") with true. cbv iota.
  rewrite parse_digits_zero_pad. cbn [expect].
  change (Ascii.eqb "-" "-") with true. cbv iota.
  rewrite parse_digits_zero_pad.
  change (10 ^ N.of_nat 4)%N with 10000%N.
  change (10 ^ N.of_nat 2)%N with 100%N.
  rewrite !N.mul_0_l, !N.add_0_l, !N.mod_small by lia.
  destruct d as [y m dd]. simpl in V |- *. now rewrite V.
Qed.

(** ** The order of strings and the sorted cursor *)


Section SortedCursor.

Variable key : document -> string.


Lemma insert_desc_in (d x : document) (l : list document) :
  In x (Mongo.insert_desc key d l) <-> x = d \/ In x l.
Proof.
  induction l as [|y l IH]; simpl.
  - intuition congruence.
  - destruct (String.leb (key y) (key d)); simpl.
    + intuition congruence.
    + rewrite IH. intuition congruence.
Qed.


Lemma sort_desc_in (x : document) (l : list document) :
  In x (Mongo.sort_desc key l) <-> In x l.
Proof.
  induction l as [|y l IH]; simpl; [tauto|].
  rewrite insert_desc_in, IH. intuition congruence.
Qed.


End SortedCursor.



(** ** The two loops that build a listing *)

Lemma loop_append {A B : Type} (f : A -> B) (skip : A -> bool) (l : list A) :
  forall acc,
    fold_left (fun announcements announcement =>
                 if skip announcement then announcements
                 else (announcements ++ [f announcement])%list) l acc
    = (acc ++ map f (filter (fun a => negb (skip a)) l))%list.
Proof.
  induction l as [|x l IH]; intros acc; simpl.
  - now rewrite app_nil_r.
  - rewrite IH. destruct (skip x); simpl; [reflexivity|].
    now rewrite <- app_assoc.
Qed.

Lemma get_active_announcements_eq (utcnow : datetime) (db : database) :
  get_active_announcements utcnow db
  = map stringify_id (active_cursor utcnow db).
Proof. unfold get_active_announcements. now rewrite loop_append. Qed.

Lemma filter_all {A : Type} (f : A -> bool) (l : list A) :
  (forall x, f x = true) -> filter f l = l.
Proof.
  intros H. induction l as [|x l IH]; simpl; [reflexivity|].
  now rewrite H, IH.
Qed.

Lemma get_all_announcements_eq (db : database) (tu : option string) :
  recognized db tu ->
  get_all_announcements db tu
  = Return (map stringify_id
                (Mongo.sort_desc created_at (announcements_collection db))).
Proof.
  intros H. unfold get_all_announcements. pass_authorization H.
  rewrite (loop_append stringify_id (fun _ => false)).
  unfold Mongo.find. rewrite !filter_all by reflexivity. reflexivity.
Qed.

(** Membership in the answer of list-active, in the terms of the code:
    the comparisons are those of strings. *)
Lemma in_active_cursor (utcnow : datetime) (db : database) (d : document) :
  In d (active_cursor utcnow db) <->
  In d (announcements_collection db) /\
  str_gte (expiration_date d) (date_isoformat (date_of utcnow)) = true /\
  starts_in_future (start_date d) (date_isoformat (date_of utcnow)) = false.
Proof.
  unfold active_cursor, Mongo.find.
  rewrite filter_In, sort_desc_in, filter_In, negb_true_iff. tauto.
Qed.

(** ** The listings *)

Lemma stringify_id_dates (a b : document) :
  stringify_id a = stringify_id b ->
  expiration_date a = expiration_date b /\ start_date a = start_date b.
Proof. unfold stringify_id. intros [= _ _ Hs He _ _]. auto. Qed.

Lemma date_le_iff_leb (s1 s2 : string) (d1 d2 : date) :
  iso_calendar_date s1 = Some d1 ->
  iso_calendar_date s2 = Some d2 ->
  (String.leb s1 s2 = true <-> date_le d1 d2).
Proof.
  intros H1 H2. unfold String.leb, date_le, date_gt.
  rewrite (iso_compare _ _ _ _ H1 H2).
  destruct (date_compare d1 d2); intuition congruence.
Qed.

Lemma date_gt_iff_ltb (s1 s2 : string) (d1 d2 : date) :
  iso_calendar_date s1 = Some d1 ->
  iso_calendar_date s2 = Some d2 ->
  String.ltb s2 s1 = date_gt d1 d2.
Proof.
  intros H1 H2. unfold String.ltb, date_gt.
  rewrite <- (iso_compare _ _ _ _ H1 H2), (String.compare_antisym s2 s1).
  now destruct (String.compare s1 s2).
Qed.

(** Whether a stored announcement is listed as active, in the terms of
    the code. *)
Lemma listed_active_iff (utcnow : datetime) (db : database) (d : document) :
  In d (announcements_collection db) ->
  (In (stringify_id d) (get_active_announcements utcnow db) <->
   str_gte (expiration_date d) (date_isoformat (date_of utcnow)) = true /\
   starts_in_future (start_date d) (date_isoformat (date_of utcnow)) = false).
Proof.
  intros Hin. rewrite get_active_announcements_eq, in_map_iff. split.
  - intros (d' & Heq & Hd'). apply in_active_cursor in Hd'.
    destruct (stringify_id_dates _ _ Heq) as [He Hs].
    rewrite He, Hs in Hd'. tauto.
  - intros [He Hs]. exists d. split; [reflexivity|].
    apply in_active_cursor. auto.
Qed.

(** X19: on a day [today], a stored announcement whose dates are ISO
    calendar dates is in the answer of list-active exactly when its
    expiration date is [today] or later and its start date, when set, is
    [today] or earlier; an announcement failing either condition is left
    out, and the answer holds nothing but stored announcements. *)
Theorem list_active_is_the_date_window
        (utcnow : datetime) (db : database) (d : document)
        (Hnow : valid_date (date_of utcnow) = true)
        (Hin : In d (announcements_collection db))
        (Hd : well_dated d) :
  (In (stringify_id d) (get_active_announcements utcnow db)
   <-> in_window (date_of utcnow) d) /\
  (forall r, In r (get_active_announcements utcnow db) ->
             exists d', In d' (announcements_collection db) /\
                        r = stringify_id d').
Proof.
  split.
  - rewrite (listed_active_iff _ _ _ Hin).
    set (today := date_of utcnow) in *.
    pose proof (iso_calendar_date_isoformat today Hnow) as Hcur.
    destruct Hd as [[de Hde] Hst]. unfold in_window, str_gte.
    rewrite (date_le_iff_leb _ _ _ _ Hcur Hde).
    assert (Hstart :
      starts_in_future (start_date d) (date_isoformat today) = false <->
      match start_date d with
      | Some s => exists ds, iso_calendar_date s = Some ds /\ date_le ds today
      | None => True
      end).
    { unfold starts_in_future, str_gt.
      destruct (start_date d) as [s|]; [|tauto].
      destruct Hst as [ds Hds].
      rewrite (date_gt_iff_ltb _ _ _ _ Hds Hcur).
      rewrite (fromisoformat_date_truthy s ds)
        by now apply fromisoformat_iso_calendar_date.
      simpl andb. unfold date_le. split.
      - intros Hle. now exists ds.
      - intros (ds' & Hds' & Hle). congruence. }
    rewrite Hstart. split.
    + intros [Hle Hs]. split; [now exists de | exact Hs].
    + intros [(de' & Hde' & Hle) Hs]. split; [congruence | exact Hs].
  - intros r Hr. rewrite get_active_announcements_eq in Hr.
    apply in_map_iff in Hr. destruct Hr as (d' & <- & Hd').
    apply in_active_cursor in Hd'. exists d'. tauto.
Qed.

Lemma list_active_is_the_date_window_witness :
  valid_date (date_of morning) = true /\
  In exam (announcements_collection one_announcement) /\
  well_dated exam /\
  In (stringify_id exam) (get_active_announcements morning one_announcement).
Proof.
  assert (Hw : well_dated exam).
  { split; [exists (mkdate 2025 12 31) | exists (mkdate 2025 5 20)];
      reflexivity. }
  split; [reflexivity|]. split; [now left|]. split; [exact Hw|].
  apply (proj1 (list_active_is_the_date_window
                  morning one_announcement exam eq_refl
                  (or_introl eq_refl) Hw)).
  split.
  - exists (mkdate 2025 12 31). split; reflexivity.
  - exists (mkdate 2025 5 20). split; reflexivity.
Defined.

(** C1: list-active does not keep to the date window for every stored
    announcement.  Create accepts the start date ["2025-06-01T00:00"],
    which it reads as the first of June, and stores the string; on the
    first of June, at 09:05 UTC, that start is not later than the current
    date, nor even than the current moment, and the expiration date lies
    months ahead, yet list-active returns nothing: it compares the stored
    string with ["2025-06-01"] and finds it greater. *)
Theorem start_with_time_of_day_is_hidden :
  exists r db1,
    create_announcement (mkdatetime (mkdate 2025 5 30) 8 0 0 0) oid_a
                        staff_only "Open day" "2025-12-31"
                        (Some "2025-06-01T00:00") (Some "t1")
    = (Return r, db1) /\
    start_date r = Some "2025-06-01T00:00" /\
    expiration_date r = "2025-12-31" /\
    fromisoformat_date "2025-06-01T00:00" = Some (mkdate 2025 6 1) /\
    fromisoformat_date "2025-12-31" = Some (mkdate 2025 12 31) /\
    date_of morning = mkdate 2025 6 1 /\
    date_le (mkdate 2025 6 1) (date_of morning) /\
    date_le (date_of morning) (mkdate 2025 12 31) /\
    announcements_collection db1 <> [] /\
    get_active_announcements morning db1 = [].
Proof.
  eexists. eexists. split; [reflexivity|].
  repeat (split; [reflexivity|]).
  split; [discriminate | reflexivity].
Qed.

(** ** Identifiers written and read back *)

Lemma fromhex_hexlify_byte (b : Byte.byte) (rest : string) :
  Bson.fromhex (Bson.hexlify_byte b rest)
  = option_map (cons b) (Bson.fromhex rest).
Proof. destruct b; reflexivity. Qed.

Lemma fromhex_str (o : Bson.oid) : Bson.fromhex (Bson.str o) = Some o.
Proof.
  induction o as [|b o IH]; [reflexivity|].
  change (Bson.str (b :: o)) with (Bson.hexlify_byte b (Bson.str o)).
  now rewrite fromhex_hexlify_byte, IH.
Qed.

Lemma length_str (o : Bson.oid) :
  String.length (Bson.str o) = 2 * List.length o.
Proof. induction o as [|b o IH]; simpl; [reflexivity | rewrite IH; lia]. Qed.

(** A twelve-byte identifier is read back from its string. *)
Lemma ObjectId_str (o : Bson.oid) :
  List.length o = 12 -> Bson.ObjectId (Bson.str o) = Some o.
Proof.
  intros H. unfold Bson.ObjectId. rewrite length_str, H. simpl.
  apply fromhex_str.
Qed.

(** ** When create and update succeed *)

Lemma validate_dates_accepted (expiration_date : string)
      (start_date : option string) :
  dates_accepted expiration_date start_date ->
  validate_dates expiration_date start_date = None.
Proof.
  intros (de & Hde & Hs). unfold validate_dates. rewrite Hde.
  destruct start_date as [s|]; [|reflexivity].
  destruct Hs as [->|(ds & Hds & Hle)]; [reflexivity|].
  rewrite (fromisoformat_date_truthy _ _ Hds), Hds.
  unfold date_le in Hle. now rewrite Hle.
Qed.

Lemma create_announcement_success
      (utcnow : datetime) (inserted_id : Bson.oid) (db : database)
      (message expiration_date : string)
      (start_date teacher_username : option string) :
  recognized db teacher_username ->
  dates_accepted expiration_date start_date ->
  no_match inserted_id (announcements_collection db) ->
  create_announcement utcnow inserted_id db message expiration_date
                      start_date teacher_username
  = (Return (stringify_id
               (created_document utcnow inserted_id message expiration_date
                                 start_date teacher_username)),
     with_announcements db
       (announcements_collection db ++
        [created_document utcnow inserted_id message expiration_date
                          start_date teacher_username])%list).
Proof.
  intros H Hd Hfresh. unfold create_announcement. pass_authorization H.
  destruct Hd as (de & Hde & Hs).
  rewrite (fromisoformat_date_truthy _ _ Hde). simpl negb. cbv iota.
  rewrite validate_dates_accepted by (exists de; auto).
  unfold Mongo.insert_one. cbn [_id].
  apply find_one_none in Hfresh. now rewrite Hfresh.
Qed.

Lemma update_announcement_success
      (db : database) (announcement_id message expiration_date : string)
      (start_date teacher_username : option string)
      (o : Bson.oid) (l1 l2 : Mongo.collection) (d : document) :
  recognized db teacher_username ->
  Bson.ObjectId announcement_id = Some o ->
  announcements_collection db = (l1 ++ d :: l2)%list ->
  no_match o l1 -> _id d = o ->
  validate_dates expiration_date start_date = None ->
  update_announcement db announcement_id message expiration_date
                      start_date teacher_username
  = (Return (stringify_id
               (updated_document d message expiration_date start_date)),
     with_announcements db
       (l1 ++ updated_document d message expiration_date start_date :: l2)
       %list).
Proof.
  intros H Hid Hc Hno Hd Hv. unfold update_announcement.
  pass_authorization H. rewrite Hid, Hc, (find_one_app _ _ _ _ Hno Hd), Hv.
  rewrite (update_one_app _ _ _ _ _ Hno Hd).
  cbn [Mongo.matched_count Mongo.modified_count].
  rewrite andb_false_r.
  change (Mongo.apply_set _ d)
    with (updated_document d message expiration_date start_date).
  now rewrite find_one_app.
Qed.

(** Every way update has of not failing. *)
Lemma update_announcement_return
      (db db' : database) (announcement_id message expiration_date : string)
      (start_date teacher_username : option string) (r : response) :
  update_announcement db announcement_id message expiration_date
                      start_date teacher_username = (Return r, db') ->
  recognized db teacher_username /\
  validate_dates expiration_date start_date = None /\
  exists o l1 d l2,
    Bson.ObjectId announcement_id = Some o /\
    announcements_collection db = (l1 ++ d :: l2)%list /\
    no_match o l1 /\ _id d = o.
Proof.
  unfold update_announcement.
  destruct (truthy teacher_username) eqn:Ht; [|discriminate]. simpl negb.
  cbv iota.
  destruct (Mongo.find_one_teacher teacher_username (teachers_collection db))
    as [u|] eqn:Hu; [|discriminate].
  destruct (Bson.ObjectId announcement_id) as [o|] eqn:Ho; [|discriminate].
  destruct (Mongo.find_one o (announcements_collection db)) as [d|] eqn:Hf;
    [|discriminate].
  destruct (validate_dates expiration_date start_date) eqn:Hv;
    [discriminate|].
  intros _. split; [|split; [reflexivity|]].
  - destruct teacher_username as [t|]; [|discriminate].
    simpl in Ht, Hu. exists t. split; [reflexivity|]. split.
    + intros ->. discriminate Ht.
    + apply find_some in Hu. destruct Hu as [Hin Heq].
      apply String.eqb_eq in Heq. now subst u.
  - destruct (find_one_split _ _ _ Hf) as (l1 & l2 & Hc & Hd & Hno).
    exists o, l1, d, l2. auto.
Qed.

(** ** Validation of the dates *)

Lemma validate_dates_start_after (expiration_date s : string) (de ds : date) :
  fromisoformat_date expiration_date = Some de ->
  fromisoformat_date s = Some ds ->
  date_gt ds de = true ->
  validate_dates expiration_date (Some s) = Some start_after_expiration.
Proof.
  intros Hde Hds Hgt. unfold validate_dates.
  now rewrite Hde, (fromisoformat_date_truthy _ _ Hds), Hds, Hgt.
Qed.

(** C3: when both dates of a create or update request are read as dates
    and the start date is strictly later than the expiration date, the
    operation fails and leaves the store as it was; once the earlier checks
    have passed (a recognized caller and, for update, an existing target)
    the failure is the 400 start-after-expiration validation error. *)
Theorem start_after_expiration_is_rejected
        (db : database) (expiration_date s : string) (de ds : date)
        (Hexp : fromisoformat_date expiration_date = Some de)
        (Hstart : fromisoformat_date s = Some ds)
        (Hlater : date_gt ds de = true) :
  (forall utcnow inserted_id message teacher_username,
      exists e,
        create_announcement utcnow inserted_id db message expiration_date
                            (Some s) teacher_username = (Raise e, db) /\
        (recognized db teacher_username -> e = start_after_expiration)) /\
  (forall announcement_id message teacher_username,
      exists e,
        update_announcement db announcement_id message expiration_date
                            (Some s) teacher_username = (Raise e, db) /\
        (recognized db teacher_username ->
         forall o d,
           Bson.ObjectId announcement_id = Some o ->
           In d (announcements_collection db) -> _id d = o ->
           e = start_after_expiration)).
Proof.
  pose proof (validate_dates_start_after _ _ _ _ Hexp Hstart Hlater) as Hv.
  pose proof (fromisoformat_date_truthy _ _ Hexp) as Hne.
  split.
  - intros utcnow inserted_id message tu. unfold create_announcement.
    rewrite Hv, Hne. simpl negb. cbv iota.
    destruct (truthy tu) eqn:Ht; simpl negb; cbv iota.
    + destruct (Mongo.find_one_teacher tu (teachers_collection db)) eqn:Hu.
      * eexists. split; reflexivity.
      * eexists. split; [reflexivity|]. intros H.
        now elim (recognized_found _ _ H Hu).
    + eexists. split; [reflexivity|]. intros H.
      now elim (recognized_truthy _ _ H Ht).
  - intros announcement_id message tu. unfold update_announcement.
    rewrite Hv.
    destruct (truthy tu) eqn:Ht; simpl negb; cbv iota.
    + destruct (Mongo.find_one_teacher tu (teachers_collection db)) eqn:Hu.
      * destruct (Bson.ObjectId announcement_id) as [o|] eqn:Ho.
        -- destruct (Mongo.find_one o (announcements_collection db)) eqn:Hf.
           ++ eexists. split; reflexivity.
           ++ eexists. split; [reflexivity|].
              intros _ o' d [= <-] Hin Hid.
              apply find_one_none in Hf. now elim (Hf d Hin).
        -- eexists. split; [reflexivity|]. intros _ o d Ho'. discriminate.
      * eexists. split; [reflexivity|]. intros H.
        now elim (recognized_found _ _ H Hu).
    + eexists. split; [reflexivity|]. intros H.
      now elim (recognized_truthy _ _ H Ht).
Qed.

Lemma start_after_expiration_is_rejected_witness :
  fromisoformat_date "2025-06-01" = Some (mkdate 2025 6 1) /\
  fromisoformat_date "2025-06-10" = Some (mkdate 2025 6 10) /\
  date_gt (mkdate 2025 6 10) (mkdate 2025 6 1) = true /\
  create_announcement morning oid_a staff_only "Exam Friday" "2025-06-01"
                      (Some "2025-06-10") (Some "t1")
  = (Raise start_after_expiration, staff_only).
Proof.
  split; [reflexivity|]. split; [reflexivity|]. split; [reflexivity|].
  destruct (start_after_expiration_is_rejected
              staff_only "2025-06-01" "2025-06-10"
              (mkdate 2025 6 1) (mkdate 2025 6 10)
              eq_refl eq_refl eq_refl) as [Hcreate _].
  destruct (Hcreate morning oid_a "Exam Friday" (Some "t1"))
    as (e & Heq & He).
  rewrite Heq, (He (t1_recognized [])). reflexivity.
Defined.

Lemma lacks_year_refused (s : string) :
  lacks_year s -> fromisoformat_date s = None.
Proof.
  unfold lacks_year, fromisoformat_date, fromisoformat, parse_isoformat_date.
  now intros ->.
Qed.


Lemma validate_dates_lacks_year (expiration_date : string)
      (start_date : option string) :
  lacks_year expiration_date \/
  (exists s, start_date = Some s /\ s <> EmptyString /\ lacks_year s) ->
  validate_dates expiration_date start_date = Some invalid_date_format.
Proof.
  unfold validate_dates. intros [Hexp | (s & -> & Hne & Hs)].
  - now rewrite (lacks_year_refused _ Hexp).
  - destruct (fromisoformat_date expiration_date); [|reflexivity].
    now rewrite (truthy_str_true _ Hne), (lacks_year_refused _ Hs).
Qed.




(** ** Order of the checks of update *)

(** C6: for an authorized caller, update first refuses an identifier that
    is no [ObjectId] (400), whatever the store and the dates are; then a
    well-formed identifier that matches no record (404), whatever the dates
    are; only for an existing record are the dates examined: an expiration
    date without a year is then answered by the format error, and a start
    date read as a later day than the expiration date by the
    start-after-expiration error. *)
Theorem update_check_order
        (db : database) (announcement_id message expiration_date : string)
        (start_date teacher_username : option string)
        (H : recognized db teacher_username) :
  (Bson.ObjectId announcement_id = None ->
   update_announcement db announcement_id message expiration_date
                       start_date teacher_username
   = (Raise invalid_id, db)) /\
  (forall o,
      Bson.ObjectId announcement_id = Some o ->
      no_match o (announcements_collection db) ->
      update_announcement db announcement_id message expiration_date
                          start_date teacher_username
      = (Raise not_found, db)) /\
  (forall o d,
      Bson.ObjectId announcement_id = Some o ->
      In d (announcements_collection db) -> _id d = o ->
      (lacks_year expiration_date ->
       update_announcement db announcement_id message expiration_date
                           start_date teacher_username
       = (Raise invalid_date_format, db)) /\
      (forall s de ds,
          start_date = Some s ->
          fromisoformat_date expiration_date = Some de ->
          fromisoformat_date s = Some ds ->
          date_gt ds de = true ->
          update_announcement db announcement_id message expiration_date
                              start_date teacher_username
          = (Raise start_after_expiration, db))).
Proof.
  unfold update_announcement. pass_authorization H.
  split; [|split].
  - intros ->. reflexivity.
  - intros o -> Hno. apply find_one_none in Hno. now rewrite Hno.
  - intros o d -> Hin Hid.
    destruct (Mongo.find_one o (announcements_collection db)) eqn:E.
    + split.
      * intros Hexp.
        now rewrite (validate_dates_lacks_year _ _ (or_introl Hexp)).
      * intros s de ds -> Hde Hds Hgt.
        now rewrite (validate_dates_start_after _ _ _ _ Hde Hds Hgt).
    + apply find_one_none in E. now elim (E d Hin).
Qed.

Lemma update_check_order_witness :
  recognized one_announcement (Some "t1") /\
  update_announcement one_announcement "42" "Exam" "not-a-date"
                      (Some "2025-13-45") (Some "t1")
  = (Raise invalid_id, one_announcement) /\
  update_announcement one_announcement "fedcba9876543210fedcba98"
                      "Exam" "not-a-date" None (Some "t1")
  = (Raise not_found, one_announcement) /\
  update_announcement one_announcement "0123456789abcdef01234567"
                      "Exam" "not-a-date" None (Some "t1")
  = (Raise invalid_date_format, one_announcement) /\
  update_announcement one_announcement "0123456789abcdef01234567"
                      "Exam" "2025-06-01" (Some "2025-06-10") (Some "t1")
  = (Raise start_after_expiration, one_announcement).
Proof.
  pose proof (t1_recognized [exam]) as H.
  split; [exact H|]. split; [|split; [|split]].
  - destruct (update_check_order one_announcement "42" "Exam" "not-a-date"
                                 (Some "2025-13-45") _ H) as (Hid & _).
    apply Hid. reflexivity.
  - destruct (update_check_order one_announcement
                                 "fedcba9876543210fedcba98" "Exam"
                                 "not-a-date" None _ H) as (_ & Hnf & _).
    apply (Hnf oid_b); [reflexivity|]. intros d [<-|[]]. discriminate.
  - destruct (update_check_order one_announcement
                                 "0123456789abcdef01234567" "Exam"
                                 "not-a-date" None _ H) as (_ & _ & Hdates).
    destruct (Hdates oid_a exam eq_refl (or_introl eq_refl) eq_refl)
      as (Hfmt & _).
    apply Hfmt. reflexivity.
  - destruct (update_check_order one_announcement
                                 "0123456789abcdef01234567" "Exam"
                                 "2025-06-01" (Some "2025-06-10") _ H)
      as (_ & _ & Hdates).
    destruct (Hdates oid_a exam eq_refl (or_introl eq_refl) eq_refl)
      as (_ & Hord).
    apply (Hord "2025-06-10" (mkdate 2025 6 1) (mkdate 2025 6 10));
      reflexivity.
Defined.

(** ** What update changes *)

(** C5: a successful update rewrites one stored record, the first with
    the target identifier: its message, start date and expiration date
    become those of the request, its identifier, [created_by] and
    [created_at] stay, every other record and the teachers stay, and the
    record returned is the rewritten one.  In particular a record created
    by a recognized teacher and then updated with a new message keeps its
    identifier, [created_by] and [created_at] and shows the new message. *)
Theorem update_keeps_immutable_fields :
  (forall db db' announcement_id message expiration_date start_date
          teacher_username r,
      update_announcement db announcement_id message expiration_date
                          start_date teacher_username = (Return r, db') ->
      exists o l1 d l2,
        Bson.ObjectId announcement_id = Some o /\
        announcements_collection db = (l1 ++ d :: l2)%list /\
        no_match o l1 /\ _id d = o /\
        let d' := mk_announcement (_id d) message start_date expiration_date
                                  (created_by d) (created_at d) in
        announcements_collection db' = (l1 ++ d' :: l2)%list /\
        teachers_collection db' = teachers_collection db /\
        r = stringify_id d') /\
  (forall utcnow inserted_id db msg new_msg expiration_date
          start_date teacher_username,
      recognized db teacher_username ->
      dates_accepted expiration_date start_date ->
      no_match inserted_id (announcements_collection db) ->
      List.length inserted_id = 12 ->
      exists r db1 r' db2,
        create_announcement utcnow inserted_id db msg expiration_date
                            start_date teacher_username = (Return r, db1) /\
        update_announcement db1 (_id r) new_msg expiration_date
                            start_date teacher_username = (Return r', db2) /\
        message r' = new_msg /\
        _id r' = _id r /\
        created_by r' = created_by r /\
        created_by r = teacher_username /\
        created_at r' = created_at r /\
        created_at r = isoformat utcnow).
Proof.
  split.
  - intros db db' announcement_id message expiration_date start_date
           teacher_username r Hupd.
    destruct (update_announcement_return _ _ _ _ _ _ _ _ Hupd)
      as (H & Hv & o & l1 & d & l2 & Ho & Hc & Hno & Hd).
    rewrite (update_announcement_success _ _ _ _ _ _ _ _ _ _
               H Ho Hc Hno Hd Hv) in Hupd.
    injection Hupd as <- <-.
    exists o, l1, d, l2. repeat split; trivial.
  - intros utcnow inserted_id db msg new_msg expiration_date
           start_date teacher_username H Hd Hfresh Hlen.
    set (doc := created_document utcnow inserted_id msg expiration_date
                                 start_date teacher_username).
    set (db1 := with_announcements db
                  (announcements_collection db ++ [doc])%list).
    assert (H1 : recognized db1 teacher_username) by exact H.
    exists (stringify_id doc), db1,
      (stringify_id (updated_document doc new_msg expiration_date
                                      start_date)),
      (with_announcements db1
         (announcements_collection db ++
          [updated_document doc new_msg expiration_date start_date])
         %list).
    split; [now apply create_announcement_success|].
    split; [|repeat split].
    apply update_announcement_success with (o := inserted_id); trivial.
    + now apply ObjectId_str.
    + now apply validate_dates_accepted.
Qed.

Lemma update_keeps_immutable_fields_witness :
  exists r r' db1 db2,
    create_announcement morning oid_a staff_only "Exam Friday" "2025-12-31"
                        None (Some "t1") = (Return r, db1) /\
    update_announcement db1 (_id r) "Exam Monday" "2025-12-31" None
                        (Some "t1") = (Return r', db2) /\
    message r' = "Exam Monday" /\
    created_by r' = Some "t1" /\
    created_at r' = "2025-06-01T09:05:03.000017" /\
    exists l1 d l2,
      announcements_collection db1 = (l1 ++ d :: l2)%list /\
      announcements_collection db2
      = (l1 ++ mk_announcement (_id d) "Exam Monday" None "2025-12-31"
                               (created_by d) (created_at d) :: l2)%list.
Proof.
  destruct (proj2 update_keeps_immutable_fields
              morning oid_a staff_only "Exam Friday" "Exam Monday"
              "2025-12-31" None (Some "t1"))
    as (r & db1 & r' & db2 & Hc & Hu & Hm & _ & Hby & Hby' & Hat & Hat').
  - apply t1_recognized.
  - exists (mkdate 2025 12 31). split; [reflexivity | exact I].
  - intros d [].
  - reflexivity.
  - exists r, r', db1, db2.
    split; [exact Hc|]. split; [exact Hu|]. split; [exact Hm|].
    split; [congruence|]. split; [rewrite Hat, Hat'; reflexivity|].
    destruct (proj1 update_keeps_immutable_fields _ _ _ _ _ _ _ _ Hu)
      as (o & l1 & d & l2 & _ & Hc1 & _ & _ & Hc2 & _).
    exists l1, d, l2. split; assumption.
Defined.

(** ** The message is not validated *)

(** C9, as the code has it: the message has to be supplied, but create
    does not look at it; with a recognized caller, accepted dates and a
    fresh identifier, create stores and returns a record with the message
    as given, the empty message included. *)
Theorem create_accepts_any_message
        (utcnow : datetime) (inserted_id : Bson.oid) (db : database)
        (msg expiration_date : string)
        (start_date teacher_username : option string)
        (H : recognized db teacher_username)
        (Hdates : dates_accepted expiration_date start_date)
        (Hfresh : no_match inserted_id (announcements_collection db)) :
  exists r db',
    create_announcement utcnow inserted_id db msg expiration_date
                        start_date teacher_username = (Return r, db') /\
    message r = msg /\
    exists d,
      announcements_collection db'
      = (announcements_collection db ++ [d])%list /\
      message d = msg /\ r = stringify_id d.
Proof.
  eexists. eexists. split; [now apply create_announcement_success|].
  split; [reflexivity|]. eexists. repeat split.
Qed.

Lemma create_accepts_any_message_witness :
  recognized staff_only (Some "t1") /\
  dates_accepted "2025-12-31" None /\
  no_match oid_a (announcements_collection staff_only) /\
  exists r db',
    create_announcement morning oid_a staff_only EmptyString "2025-12-31"
                        None (Some "t1") = (Return r, db') /\
    message r = EmptyString.
Proof.
  assert (Hd : dates_accepted "2025-12-31" None)
    by (exists (mkdate 2025 12 31); split; [reflexivity | exact I]).
  assert (Hf : no_match oid_a (announcements_collection staff_only))
    by (intros d []).
  split; [apply t1_recognized|]. split; [exact Hd|]. split; [exact Hf|].
  destruct (create_accepts_any_message
              morning oid_a staff_only EmptyString "2025-12-31" None
              (Some "t1") (t1_recognized []) Hd Hf)
    as (r & db' & Hc & Hm & _).
  exists r, db'. split; assumption.
Defined.

(** C9 as stated fails: a recognized teacher creates an announcement
    whose message is the empty string; the record is stored and
    returned. *)
Lemma empty_message_is_stored :
  create_announcement morning oid_a staff_only EmptyString "2025-12-31"
                      None (Some "t1")
  = (Return (mk_announcement "0123456789abcdef01234567" EmptyString None
                             "2025-12-31" (Some "t1")
                             "2025-06-01T09:05:03.000017"),
     mk_database [mk_announcement oid_a EmptyString None "2025-12-31"
                                  (Some "t1") "2025-06-01T09:05:03.000017"]
                 ["t1"]).
Proof. reflexivity. Qed.

(** ** The empty start date *)



(** ** A run of the service *)

(** The scenario of the specification: [t1] creates an announcement, deletes
    it, and a later update of the same identifier finds nothing. *)
Example create_delete_update :
  let (created, db1) :=
    create_announcement morning oid_a staff_only "Exam Friday" "2025-12-31"
                        None (Some "t1") in
  let (deleted, db2) :=
    delete_announcement db1 "0123456789abcdef01234567" (Some "t1") in
  let (updated, db3) :=
    update_announcement db2 "0123456789abcdef01234567" "Exam Monday"
                        "2025-12-31" None (Some "t1") in
  created = Return (mk_announcement "0123456789abcdef01234567" "Exam Friday"
                                    None "2025-12-31" (Some "t1")
                                    "2025-06-01T09:05:03.000017") /\
  deleted = Return "Announcement deleted successfully" /\
  updated = Raise not_found /\
  db3 = staff_only.
Proof. repeat split. Qed.

(** * Further properties of the endpoints *)

(** ** Every way an endpoint can end *)

Lemma passes_recognized (db : database) (tu : option string) (u : string) :
  truthy tu = true ->
  Mongo.find_one_teacher tu (teachers_collection db) = Some u ->
  recognized db tu.
Proof.
  intros Ht Hu. destruct tu as [t|]; [|discriminate].
  simpl in Ht, Hu. exists t. split; [reflexivity|]. split.
  - intros ->. discriminate Ht.
  - apply find_some in Hu. destruct Hu as [Hin Heq].
    apply String.eqb_eq in Heq. now subst u.
Qed.

Lemma validate_dates_errors (expiration_date : string)
      (start_date : option string) (e : exn) :
  validate_dates expiration_date start_date = Some e ->
  e = invalid_date_format \/ e = start_after_expiration.
Proof.
  unfold validate_dates.
  destruct (fromisoformat_date expiration_date) as [de|];
    [|intros [= <-]; now left].
  destruct start_date as [s|]; [|discriminate].
  destruct (truthy_str s); [|discriminate].
  destruct (fromisoformat_date s) as [ds|]; [|intros [= <-]; now left].
  destruct (date_gt ds de); [intros [= <-]; now right | discriminate].
Qed.

Lemma validate_dates_none (expiration_date : string)
      (start_date : option string) :
  validate_dates expiration_date start_date = None <->
  dates_accepted expiration_date start_date.
Proof.
  split; [|apply validate_dates_accepted].
  unfold validate_dates, dates_accepted.
  destruct (fromisoformat_date expiration_date) as [de|]; [|discriminate].
  intros Hv. exists de. split; [reflexivity|].
  destruct start_date as [s|]; [|exact I].
  destruct (truthy_str s) eqn:Ht;
    [|left; now apply truthy_str_false].
  destruct (fromisoformat_date s) as [ds|]; [|discriminate].
  destruct (date_gt ds de) eqn:Hgt; [discriminate|].
  right. exists ds. split; [reflexivity | exact Hgt].
Qed.

(** Create ends in one of its five errors or in the driver's duplicate-key
    error, the store untouched, or it appends the new document. *)
Lemma create_announcement_cases
      (utcnow : datetime) (inserted_id : Bson.oid) (db : database)
      (msg expiration : string) (start teacher_username : option string) :
  (exists e,
      create_announcement utcnow inserted_id db msg expiration start
                          teacher_username = (Raise e, db) /\
      (In e create_errors \/
       (e = DuplicateKeyError /\
        ~ no_match inserted_id (announcements_collection db)))) \/
  (recognized db teacher_username /\
   dates_accepted expiration start /\
   no_match inserted_id (announcements_collection db) /\
   create_announcement utcnow inserted_id db msg expiration start
                       teacher_username
   = (Return (stringify_id
                (created_document utcnow inserted_id msg expiration start
                                  teacher_username)),
      with_announcements db
        (announcements_collection db ++
         [created_document utcnow inserted_id msg expiration start
                           teacher_username])%list)).
Proof.
  unfold create_announcement, create_errors.
  destruct (truthy teacher_username) eqn:Ht; simpl negb; cbv iota;
    [|left; eexists; split; [reflexivity|]; left; simpl; tauto].
  destruct (Mongo.find_one_teacher teacher_username (teachers_collection db))
    as [u|] eqn:Hu;
    [|left; eexists; split; [reflexivity|]; left; simpl; tauto].
  destruct (truthy_str expiration) eqn:He; simpl negb; cbv iota;
    [|left; eexists; split; [reflexivity|]; left; simpl; tauto].
  destruct (validate_dates expiration start) as [e|] eqn:Hv.
  - left. exists e. split; [reflexivity|]. left.
    destruct (validate_dates_errors _ _ _ Hv) as [-> | ->]; simpl; tauto.
  - unfold Mongo.insert_one. cbn [_id].
    destruct (Mongo.find_one inserted_id (announcements_collection db))
      as [d|] eqn:Hf.
    + left. eexists. split; [reflexivity|]. right. split; [reflexivity|].
      intros Hno. apply find_one_none in Hno. congruence.
    + right. split; [now apply passes_recognized with (u := u)|].
      split; [now apply validate_dates_none|].
      split; [now apply find_one_none | reflexivity].
Qed.

(** Update ends in one of its six errors, the store untouched, or it
    rewrites the first record with the target identifier. *)
Lemma update_announcement_cases
      (db : database) (announcement_id msg expiration : string)
      (start teacher_username : option string) :
  (exists e,
      update_announcement db announcement_id msg expiration start
                          teacher_username = (Raise e, db) /\
      In e update_errors) \/
  (exists o l1 d l2,
      recognized db teacher_username /\
      dates_accepted expiration start /\
      Bson.ObjectId announcement_id = Some o /\
      announcements_collection db = (l1 ++ d :: l2)%list /\
      no_match o l1 /\ _id d = o /\
      update_announcement db announcement_id msg expiration start
                          teacher_username
      = (Return (stringify_id (updated_document d msg expiration start)),
         with_announcements db
           (l1 ++ updated_document d msg expiration start :: l2)%list)).
Proof.
  destruct (truthy teacher_username) eqn:Ht;
    [|left; eexists; split;
      [unfold update_announcement; rewrite Ht; reflexivity
      |unfold update_errors; simpl; tauto]].
  destruct (Mongo.find_one_teacher teacher_username (teachers_collection db))
    as [u|] eqn:Hu;
    [|left; eexists; split;
      [unfold update_announcement; rewrite Ht, Hu; reflexivity
      |unfold update_errors; simpl; tauto]].
  pose proof (passes_recognized _ _ _ Ht Hu) as H.
  destruct (Bson.ObjectId announcement_id) as [o|] eqn:Ho;
    [|left; eexists; split;
      [unfold update_announcement; rewrite Ht, Hu, Ho; reflexivity
      |unfold update_errors; simpl; tauto]].
  destruct (Mongo.find_one o (announcements_collection db)) as [d|] eqn:Hf;
    [|left; eexists; split;
      [unfold update_announcement; rewrite Ht, Hu, Ho, Hf; reflexivity
      |unfold update_errors; simpl; tauto]].
  destruct (validate_dates expiration start) as [e|] eqn:Hv.
  - left. exists e. split.
    + unfold update_announcement. now rewrite Ht, Hu, Ho, Hf, Hv.
    + destruct (validate_dates_errors _ _ _ Hv) as [-> | ->];
        unfold update_errors; simpl; tauto.
  - right. destruct (find_one_split _ _ _ Hf) as (l1 & l2 & Hc & Hd & Hno).
    exists o, l1, d, l2. split; [exact H|].
    split; [now apply validate_dates_none|].
    repeat (split; [first [assumption | reflexivity]|]).
    now apply update_announcement_success with (o := o).
Qed.

(** Delete ends in one of its four errors, the store untouched, or it
    removes the first record with the target identifier. *)
Lemma delete_announcement_cases
      (db : database) (announcement_id : string)
      (teacher_username : option string) :
  (exists e,
      delete_announcement db announcement_id teacher_username
      = (Raise e, db) /\
      In e delete_errors) \/
  (exists o l1 d l2,
      recognized db teacher_username /\
      Bson.ObjectId announcement_id = Some o /\
      announcements_collection db = (l1 ++ d :: l2)%list /\
      no_match o l1 /\ _id d = o /\
      delete_announcement db announcement_id teacher_username
      = (Return "Announcement deleted successfully",
         with_announcements db (l1 ++ l2)%list)).
Proof.
  destruct (truthy teacher_username) eqn:Ht;
    [|left; eexists; split;
      [unfold delete_announcement; rewrite Ht; reflexivity
      |unfold delete_errors; simpl; tauto]].
  destruct (Mongo.find_one_teacher teacher_username (teachers_collection db))
    as [u|] eqn:Hu;
    [|left; eexists; split;
      [unfold delete_announcement; rewrite Ht, Hu; reflexivity
      |unfold delete_errors; simpl; tauto]].
  pose proof (passes_recognized _ _ _ Ht Hu) as H.
  destruct (Bson.ObjectId announcement_id) as [o|] eqn:Ho;
    [|left; eexists; split;
      [unfold delete_announcement; rewrite Ht, Hu, Ho; reflexivity
      |unfold delete_errors; simpl; tauto]].
  destruct (Mongo.find_one o (announcements_collection db)) as [d|] eqn:Hf.
  - right. destruct (find_one_split _ _ _ Hf) as (l1 & l2 & Hc & Hd & Hno).
    exists o, l1, d, l2.
    repeat (split; [first [assumption | reflexivity]|]).
    now apply delete_announcement_match with (o := o) (d := d).
  - left. exists not_found. split.
    + apply delete_announcement_no_match with (o := o); trivial.
      now apply find_one_none.
    + unfold delete_errors; simpl; tauto.
Qed.

(** ** Failures *)

(** X1: whenever create, update or delete raises, the store it leaves is
    the store it was given: every error is raised before anything is
    written. *)
Theorem failures_leave_the_store_untouched (db db' : database) (e : exn) :
  (forall utcnow inserted_id msg expiration start teacher_username,
      create_announcement utcnow inserted_id db msg expiration start
                          teacher_username = (Raise e, db') ->
      db' = db) /\
  (forall announcement_id msg expiration start teacher_username,
      update_announcement db announcement_id msg expiration start
                          teacher_username = (Raise e, db') ->
      db' = db) /\
  (forall announcement_id teacher_username,
      delete_announcement db announcement_id teacher_username
      = (Raise e, db') ->
      db' = db).
Proof.
  split; [|split].
  - intros utcnow inserted_id msg expiration start tu Hop.
    destruct (create_announcement_cases utcnow inserted_id db msg expiration
                                        start tu)
      as [(e' & Heq & _) | (_ & _ & _ & Heq)];
      rewrite Heq in Hop; [now injection Hop | discriminate Hop].
  - intros announcement_id msg expiration start tu Hop.
    destruct (update_announcement_cases db announcement_id msg expiration
                                        start tu)
      as [(e' & Heq & _) | (o & l1 & d & l2 & _ & _ & _ & _ & _ & _ & Heq)];
      rewrite Heq in Hop; [now injection Hop | discriminate Hop].
  - intros announcement_id tu Hop.
    destruct (delete_announcement_cases db announcement_id tu)
      as [(e' & Heq & _) | (o & l1 & d & l2 & _ & _ & _ & _ & _ & Heq)];
      rewrite Heq in Hop; [now injection Hop | discriminate Hop].
Qed.

Lemma failures_leave_the_store_untouched_witness :
  update_announcement one_announcement "0123456789abcdef01234567"
                      "Exam Monday" "2025-06-01" (Some "2025-06-10")
                      (Some "t1")
  = (Raise start_after_expiration, one_announcement).
Proof.
  assert (Hfst :
    fst (update_announcement one_announcement "0123456789abcdef01234567"
                             "Exam Monday" "2025-06-01" (Some "2025-06-10")
                             (Some "t1"))
    = Raise start_after_expiration) by reflexivity.
  destruct (update_announcement one_announcement "0123456789abcdef01234567"
                                "Exam Monday" "2025-06-01"
                                (Some "2025-06-10") (Some "t1"))
    as [out db'] eqn:Hop.
  simpl in Hfst. subst out.
  destruct (failures_leave_the_store_untouched
              one_announcement db' start_after_expiration)
    as (_ & Hupd & _).
  now rewrite (Hupd _ _ _ _ _ Hop).
Defined.

(** X2: delete ends in one of four errors or in its one success
    message: every error it raises is authentication-required,
    invalid-credentials, invalid-identifier or not-found, and every value
    it returns is the text "Announcement deleted successfully". *)
Theorem delete_raises_only_its_errors
        (db db' : database) (announcement_id : string)
        (teacher_username : option string) (out : outcome string)
        (Hdel : delete_announcement db announcement_id teacher_username
                = (out, db')) :
  (forall e, out = Raise e -> In e delete_errors) /\
  (forall m, out = Return m -> m = "Announcement deleted successfully").
Proof.
  destruct (delete_announcement_cases db announcement_id teacher_username)
    as [(e' & Heq & Hin) | (o & l1 & d & l2 & _ & _ & _ & _ & _ & Heq)];
    rewrite Heq in Hdel; injection Hdel as <- _; split.
  - now intros e [= <-].
  - discriminate.
  - discriminate.
  - now intros m [= <-].
Qed.

Lemma delete_raises_only_its_errors_witness :
  delete_announcement staff_only "0123456789abcdef01234567" (Some "t1")
  = (Raise not_found, staff_only) /\
  In not_found delete_errors.
Proof.
  assert (Hop : delete_announcement staff_only "0123456789abcdef01234567"
                                    (Some "t1")
                = (Raise not_found, staff_only)) by reflexivity.
  split; [exact Hop|].
  exact (proj1 (delete_raises_only_its_errors _ _ _ _ _ Hop) _ eq_refl).
Defined.

(** ** What it takes for create and update to succeed *)

Lemma accepted_iso_dates_are_ordered
      (expiration s : string) (de ds : date) :
  dates_accepted expiration (Some s) ->
  iso_calendar_date expiration = Some de ->
  iso_calendar_date s = Some ds ->
  date_le ds de.
Proof.
  intros (de' & Hde' & Hs) Hde Hds.
  apply fromisoformat_iso_calendar_date in Hde.
  pose proof (fromisoformat_iso_calendar_date _ _ Hds) as Hds'.
  destruct Hs as [-> | (ds' & Hds'' & Hle)]; [discriminate Hds'|].
  congruence.
Qed.

Lemma dates_accepted_nonempty (expiration : string)
      (start : option string) :
  dates_accepted expiration start -> expiration <> EmptyString.
Proof. intros (de & Hde & _) ->. discriminate Hde. Qed.

(** X3: given an identifier no stored announcement carries, create
    returns a record to a recognized teacher whose dates pass the
    validation; and whenever create returns, the caller is a recognized
    teacher, the expiration date is not empty, one document has been
    appended, built from the arguments, the caller and the clock, it is
    returned with its identifier as a string, and a start date and an
    expiration date that are ISO calendar dates are in order. *)
Theorem create_success_conditions
        (utcnow : datetime) (inserted_id : Bson.oid) (db : database)
        (msg expiration : string) (start teacher_username : option string)
        (Hfresh : no_match inserted_id (announcements_collection db)) :
  (recognized db teacher_username -> dates_accepted expiration start ->
   exists r db',
     create_announcement utcnow inserted_id db msg expiration start
                         teacher_username = (Return r, db')) /\
  (forall r db',
      create_announcement utcnow inserted_id db msg expiration start
                          teacher_username = (Return r, db') ->
      recognized db teacher_username /\
      expiration <> EmptyString /\
      r = mk_announcement (Bson.str inserted_id) msg start expiration
                          teacher_username (isoformat utcnow) /\
      announcements_collection db'
      = (announcements_collection db ++
         [mk_announcement inserted_id msg start expiration teacher_username
                          (isoformat utcnow)])%list /\
      forall s ds de,
        start = Some s ->
        iso_calendar_date s = Some ds ->
        iso_calendar_date expiration = Some de ->
        date_le ds de).
Proof.
  split.
  - intros H Hd. eexists. eexists.
    now apply create_announcement_success.
  - intros r db' Hr.
    destruct (create_announcement_cases utcnow inserted_id db msg expiration
                                        start teacher_username)
      as [(e & Heq & _) | (H & Hd & _ & Heq)];
      rewrite Heq in Hr; [discriminate Hr|].
    injection Hr as <- <-.
    split; [exact H|].
    split; [now apply dates_accepted_nonempty with (start := start)|].
    split; [reflexivity|]. split; [reflexivity|].
    intros s ds de -> Hds Hde.
    now apply accepted_iso_dates_are_ordered
      with (expiration := expiration) (s := s).
Qed.

Lemma create_success_conditions_witness :
  no_match oid_b (announcements_collection one_announcement) /\
  exists r db',
    create_announcement morning oid_b one_announcement "Science fair"
                        "2025-06-01" (Some "2025-06-01") (Some "t1")
    = (Return r, db') /\
    created_by r = Some "t1".
Proof.
  assert (Hfresh : no_match oid_b (announcements_collection one_announcement)).
  { intros d [<-|[]]. discriminate. }
  split; [exact Hfresh|].
  destruct (create_success_conditions
              morning oid_b one_announcement "Science fair" "2025-06-01"
              (Some "2025-06-01") (Some "t1") Hfresh) as [Hgo Hback].
  destruct Hgo as (r & db' & Hr).
  - apply t1_recognized.
  - exists (mkdate 2025 6 1). split; [reflexivity|]. right.
    exists (mkdate 2025 6 1). split; reflexivity.
  - exists r, db'. split; [exact Hr|].
    destruct (Hback r db' Hr) as (_ & _ & -> & _). reflexivity.
Defined.

(** X4: update returns a record to a recognized teacher who names, by an
    [ObjectId], a stored announcement, with dates that pass the
    validation; and whenever update returns, the caller is a recognized
    teacher, the identifier is an [ObjectId] that a stored announcement
    carries, and a start date and an expiration date that are ISO calendar
    dates are in order. *)
Theorem update_success_conditions
        (db : database) (announcement_id msg expiration : string)
        (start teacher_username : option string) :
  (recognized db teacher_username -> dates_accepted expiration start ->
   (exists o d, Bson.ObjectId announcement_id = Some o /\
                In d (announcements_collection db) /\ _id d = o) ->
   exists r db',
     update_announcement db announcement_id msg expiration start
                         teacher_username = (Return r, db')) /\
  (forall r db',
      update_announcement db announcement_id msg expiration start
                          teacher_username = (Return r, db') ->
      recognized db teacher_username /\
      (exists o d, Bson.ObjectId announcement_id = Some o /\
                   In d (announcements_collection db) /\ _id d = o) /\
      forall s ds de,
        start = Some s ->
        iso_calendar_date s = Some ds ->
        iso_calendar_date expiration = Some de ->
        date_le ds de).
Proof.
  split.
  - intros H Hd (o & d & Ho & Hin & Hid).
    destruct (Mongo.find_one o (announcements_collection db)) as [d'|] eqn:Hf.
    + destruct (find_one_split _ _ _ Hf) as (l1 & l2 & Hc & Hd' & Hno).
      eexists. eexists.
      apply update_announcement_success with (o := o) (d := d'); eauto.
      now apply validate_dates_accepted.
    + apply find_one_none in Hf. now elim (Hf d Hin).
  - intros r db' Hr.
    destruct (update_announcement_return _ _ _ _ _ _ _ _ Hr)
      as (H & Hv & o & l1 & d & l2 & Ho & Hc & _ & Hd).
    split; [exact H|]. split.
    + exists o, d. split; [exact Ho|]. split; [|exact Hd].
      rewrite Hc. apply in_elt.
    + intros s ds de -> Hds Hde. apply validate_dates_none in Hv.
      now apply accepted_iso_dates_are_ordered
        with (expiration := expiration) (s := s).
Qed.

Lemma update_success_conditions_witness :
  exists r db',
    update_announcement one_announcement "0123456789abcdef01234567"
                        "Exam Monday" "2025-12-31" (Some "2025-06-02")
                        (Some "t1")
    = (Return r, db').
Proof.
  apply (proj1 (update_success_conditions
                  one_announcement "0123456789abcdef01234567" "Exam Monday"
                  "2025-12-31" (Some "2025-06-02") (Some "t1"))).
  - apply t1_recognized.
  - exists (mkdate 2025 12 31). split; [reflexivity|]. right.
    exists (mkdate 2025 6 2). split; reflexivity.
  - exists oid_a, exam. split; [reflexivity|]. split; [now left | reflexivity].
Defined.

(** ** What the store keeps *)

Lemma unique_ids_app_fresh (c : Mongo.collection) (d : document) :
  unique_ids c -> no_match (_id d) c -> unique_ids (c ++ [d])%list.
Proof.
  unfold unique_ids. intros Hu Hno. rewrite map_app. simpl.
  apply NoDup_app; [exact Hu | repeat constructor; intros [] |].
  intros x Hx [<-|[]]. apply in_map_iff in Hx.
  destruct Hx as (y & Hy & Hin). exact (Hno y Hin Hy).
Qed.

Lemma unique_ids_remove (l1 l2 : Mongo.collection) (d : document) :
  unique_ids (l1 ++ d :: l2)%list -> unique_ids (l1 ++ l2)%list.
Proof.
  unfold unique_ids. rewrite !map_app. simpl. apply NoDup_remove_1.
Qed.


Lemma unique_ids_no_match_rest (o : Bson.oid) (l1 l2 : Mongo.collection)
      (d : document) :
  unique_ids (l1 ++ d :: l2)%list -> no_match o l1 -> _id d = o ->
  no_match o (l1 ++ l2)%list.
Proof.
  intros Hu Hno Hd x Hx Hid. apply in_app_or in Hx.
  destruct Hx as [Hx|Hx]; [exact (Hno x Hx Hid)|].
  unfold unique_ids in Hu. rewrite map_app in Hu. simpl in Hu.
  apply NoDup_remove_2 in Hu. apply Hu. apply in_or_app. right.
  rewrite Hd, <- Hid. now apply in_map.
Qed.

(** X5: no endpoint touches the teachers, and none breaks the uniqueness
    of the identifiers: if no two stored announcements share an identifier
    before create, update or delete, none do afterwards, whatever the
    arguments and the outcome. *)
Theorem endpoints_keep_identifiers_unique
        (db : database)
        (Hunique : unique_ids (announcements_collection db)) :
  (forall utcnow inserted_id msg expiration start teacher_username out db',
      create_announcement utcnow inserted_id db msg expiration start
                          teacher_username = (out, db') ->
      unique_ids (announcements_collection db') /\
      teachers_collection db' = teachers_collection db) /\
  (forall announcement_id msg expiration start teacher_username out db',
      update_announcement db announcement_id msg expiration start
                          teacher_username = (out, db') ->
      unique_ids (announcements_collection db') /\
      map _id (announcements_collection db')
      = map _id (announcements_collection db) /\
      teachers_collection db' = teachers_collection db) /\
  (forall announcement_id teacher_username out db',
      delete_announcement db announcement_id teacher_username = (out, db') ->
      unique_ids (announcements_collection db') /\
      teachers_collection db' = teachers_collection db).
Proof.
  split; [|split].
  - intros utcnow inserted_id msg expiration start tu out db' Hop.
    destruct (create_announcement_cases utcnow inserted_id db msg expiration
                                        start tu)
      as [(e & Heq & _) | (_ & _ & Hno & Heq)];
      rewrite Heq in Hop; injection Hop as <- <-; [now split|].
    split; [|reflexivity]. simpl. now apply unique_ids_app_fresh.
  - intros announcement_id msg expiration start tu out db' Hop.
    destruct (update_announcement_cases db announcement_id msg expiration
                                        start tu)
      as [(e & Heq & _)
         | (o & l1 & d & l2 & _ & _ & _ & Hc & _ & _ & Heq)];
      rewrite Heq in Hop; injection Hop as <- <-; [now repeat split|].
    assert (Hids : map _id (l1 ++ updated_document d msg expiration start
                               :: l2)%list
                   = map _id (announcements_collection db))
      by (rewrite Hc, !map_app; reflexivity).
    split; [|split; [exact Hids | reflexivity]].
    simpl. unfold unique_ids. now rewrite Hids.
  - intros announcement_id tu out db' Hop.
    destruct (delete_announcement_cases db announcement_id tu)
      as [(e & Heq & _) | (o & l1 & d & l2 & _ & _ & Hc & _ & _ & Heq)];
      rewrite Heq in Hop; injection Hop as <- <-; [now split|].
    split; [|reflexivity]. simpl. rewrite Hc in Hunique.
    now apply unique_ids_remove in Hunique.
Qed.

Lemma endpoints_keep_identifiers_unique_witness :
  unique_ids (announcements_collection two_announcements) /\
  unique_ids
    (announcements_collection
       (snd (delete_announcement two_announcements
                                 "0123456789abcdef01234567" (Some "t1")))).
Proof.
  assert (Hu : unique_ids (announcements_collection two_announcements)).
  { repeat constructor; simpl; [intros [E|[]]; discriminate E | tauto]. }
  split; [exact Hu|].
  destruct (endpoints_keep_identifiers_unique two_announcements Hu)
    as (_ & _ & Hdel).
  apply (Hdel "0123456789abcdef01234567" (Some "t1")
              (fst (delete_announcement two_announcements
                                        "0123456789abcdef01234567"
                                        (Some "t1")))).
  apply surjective_pairing.
Defined.

(** ** The full listing *)

Lemma insert_desc_permutation (key : document -> string) (d : document)
      (l : list document) :
  Permutation (Mongo.insert_desc key d l) (d :: l).
Proof.
  induction l as [|x l IH]; simpl; [reflexivity|].
  destruct (String.leb (key x) (key d)); [reflexivity|].
  rewrite IH. apply perm_swap.
Qed.

Lemma sort_desc_permutation (key : document -> string) (l : list document) :
  Permutation (Mongo.sort_desc key l) l.
Proof.
  induction l as [|x l IH]; simpl; [reflexivity|].
  rewrite insert_desc_permutation. now constructor.
Qed.






(** X6: for a recognized caller list-all returns every stored
    announcement once, none left out and none repeated: its answer is a
    rearrangement of the store, each document with its identifier as a
    string.  Every entry of list-active is an entry of list-all. *)
Theorem list_all_is_complete
        (db : database) (teacher_username : option string)
        (H : recognized db teacher_username) :
  exists l,
    get_all_announcements db teacher_username = Return l /\
    Permutation l (map stringify_id (announcements_collection db)) /\
    forall utcnow r, In r (get_active_announcements utcnow db) -> In r l.
Proof.
  eexists. split; [now apply get_all_announcements_eq|]. split.
  - apply Permutation_map, sort_desc_permutation.
  - intros utcnow r Hr. rewrite get_active_announcements_eq in Hr.
    apply in_map_iff in Hr. destruct Hr as (d & <- & Hd).
    apply in_active_cursor in Hd. apply in_map.
    apply sort_desc_in. tauto.
Qed.

Lemma list_all_is_complete_witness :
  recognized two_announcements (Some "t1") /\
  exists l,
    get_all_announcements two_announcements (Some "t1") = Return l /\
    Permutation l [stringify_id exam; stringify_id fair].
Proof.
  split; [apply t1_recognized|].
  destruct (list_all_is_complete two_announcements (Some "t1")
                                 (t1_recognized [exam; fair]))
    as (l & Hl & Hp & _).
  exists l. split; assumption.
Defined.

(** ** How the operations compose *)

Lemma with_announcements_twice (db : database) (c c' : Mongo.collection) :
  with_announcements (with_announcements db c) c' = with_announcements db c'.
Proof. reflexivity. Qed.

(** X7: deletion is permanent.  In a store with unique identifiers, once
    delete has succeeded no stored announcement carries the identifier any
    more, so that a further delete and any update of it answer not-found
    and leave the store as it is. *)
Theorem delete_is_permanent
        (db db' : database) (announcement_id : string)
        (teacher_username : option string) (m : string)
        (Hunique : unique_ids (announcements_collection db))
        (Hdel : delete_announcement db announcement_id teacher_username
                = (Return m, db')) :
  (exists o, Bson.ObjectId announcement_id = Some o /\
             no_match o (announcements_collection db')) /\
  delete_announcement db' announcement_id teacher_username
  = (Raise not_found, db') /\
  (forall msg expiration start,
      update_announcement db' announcement_id msg expiration start
                          teacher_username = (Raise not_found, db')).
Proof.
  destruct (delete_announcement_cases db announcement_id teacher_username)
    as [(e & Heq & _) | (o & l1 & d & l2 & H & Ho & Hc & Hno & Hd & Heq)];
    rewrite Heq in Hdel; [discriminate Hdel|].
  injection Hdel as _ <-.
  assert (Hgone : no_match o (l1 ++ l2)%list).
  { rewrite Hc in Hunique.
    now apply unique_ids_no_match_rest with (d := d). }
  assert (H' : recognized (with_announcements db (l1 ++ l2)%list)
                          teacher_username) by exact H.
  split; [exists o; now split|]. split.
  - now apply delete_announcement_no_match with (o := o).
  - intros msg expiration start.
    unfold update_announcement. pass_authorization H'. rewrite Ho.
    cbn [announcements_collection with_announcements].
    apply find_one_none in Hgone. now rewrite Hgone.
Qed.

Lemma delete_is_permanent_witness :
  unique_ids (announcements_collection one_announcement) /\
  delete_announcement one_announcement "0123456789abcdef01234567"
                      (Some "t1")
  = (Return "Announcement deleted successfully", staff_only) /\
  delete_announcement staff_only "0123456789abcdef01234567" (Some "t1")
  = (Raise not_found, staff_only).
Proof.
  assert (Hu : unique_ids (announcements_collection one_announcement))
    by (repeat constructor; intros []).
  assert (Hdel : delete_announcement one_announcement
                                     "0123456789abcdef01234567" (Some "t1")
                 = (Return "Announcement deleted successfully", staff_only))
    by reflexivity.
  split; [exact Hu|]. split; [exact Hdel|].
  exact (proj1 (proj2 (delete_is_permanent _ _ _ _ _ Hu Hdel))).
Defined.

(** X8: create and delete undo each other.  When a recognized teacher
    creates an announcement under a fresh twelve-byte identifier and then
    deletes it by the identifier create returned, the delete succeeds and
    the store is again exactly what it was before the create. *)
Theorem create_then_delete_restores_the_store
        (utcnow : datetime) (inserted_id : Bson.oid) (db : database)
        (msg expiration : string) (start teacher_username : option string)
        (H : recognized db teacher_username)
        (Hdates : dates_accepted expiration start)
        (Hfresh : no_match inserted_id (announcements_collection db))
        (Hlen : List.length inserted_id = 12) :
  exists r db1,
    create_announcement utcnow inserted_id db msg expiration start
                        teacher_username = (Return r, db1) /\
    delete_announcement db1 (_id r) teacher_username
    = (Return "Announcement deleted successfully", db).
Proof.
  set (doc := created_document utcnow inserted_id msg expiration start
                               teacher_username).
  exists (stringify_id doc),
    (with_announcements db (announcements_collection db ++ [doc])%list).
  split; [now apply create_announcement_success|].
  change (_id (stringify_id doc)) with (Bson.str inserted_id).
  assert (Hdel := delete_announcement_match
            (with_announcements db (announcements_collection db ++ [doc])%list)
            (Bson.str inserted_id) teacher_username inserted_id
            (announcements_collection db) [] doc
            H (ObjectId_str _ Hlen) eq_refl Hfresh eq_refl).
  rewrite Hdel, app_nil_r, with_announcements_twice.
  now rewrite with_announcements_same.
Qed.

Lemma create_then_delete_restores_the_store_witness :
  exists r db1,
    create_announcement morning oid_b one_announcement "Science fair"
                        "2025-06-01" None (Some "t1") = (Return r, db1) /\
    delete_announcement db1 (_id r) (Some "t1")
    = (Return "Announcement deleted successfully", one_announcement).
Proof.
  apply create_then_delete_restores_the_store.
  - apply t1_recognized.
  - exists (mkdate 2025 6 1). split; [reflexivity | exact I].
  - intros d [<-|[]]. discriminate.
  - reflexivity.
Defined.

(** X9: an update that changes nothing is no error, and update is
    idempotent: after a successful update the same request succeeds
    again, returns the same record and leaves the store as the first
    update left it. *)
Theorem update_is_idempotent
        (db db1 : database) (announcement_id msg expiration : string)
        (start teacher_username : option string) (r : response)
        (Hupd : update_announcement db announcement_id msg expiration start
                                    teacher_username = (Return r, db1)) :
  update_announcement db1 announcement_id msg expiration start
                      teacher_username = (Return r, db1).
Proof.
  destruct (update_announcement_cases db announcement_id msg expiration
                                      start teacher_username)
    as [(e & Heq & _)
       | (o & l1 & d & l2 & H & Hd & Ho & Hc & Hno & Hid & Heq)];
    rewrite Heq in Hupd; [discriminate Hupd|].
  injection Hupd as <- <-.
  set (d' := updated_document d msg expiration start).
  assert (H' : recognized (with_announcements db (l1 ++ d' :: l2)%list)
                          teacher_username) by exact H.
  rewrite (update_announcement_success
             (with_announcements db (l1 ++ d' :: l2)%list)
             announcement_id msg expiration start teacher_username
             o l1 l2 d' H' Ho eq_refl Hno Hid
             (validate_dates_accepted _ _ Hd)).
  reflexivity.
Qed.

Lemma update_is_idempotent_witness :
  update_announcement one_announcement "0123456789abcdef01234567"
                      "Exam Friday" "2025-12-31" (Some "2025-05-20")
                      (Some "t1")
  = (Return (stringify_id exam), one_announcement) /\
  update_announcement one_announcement "0123456789abcdef01234567"
                      "Exam Friday" "2025-12-31" (Some "2025-05-20")
                      (Some "t1")
  = (Return (stringify_id exam), one_announcement).
Proof.
  assert (Hupd : update_announcement one_announcement
                                     "0123456789abcdef01234567"
                                     "Exam Friday" "2025-12-31"
                                     (Some "2025-05-20") (Some "t1")
                 = (Return (stringify_id exam), one_announcement))
    by reflexivity.
  split; [exact Hupd|].
  exact (update_is_idempotent _ _ _ _ _ _ _ _ Hupd).
Defined.



(** ** Order of the checks of create *)

(** X11: for a recognized caller, create first refuses an empty
    expiration date (expiration-date-required), whatever the start date
    is; then a non-empty expiration date without a year, and a non-empty
    start date without a year, are answered by the format error, and a
    start date read as a later day than the expiration date by the
    start-after-expiration error.  All of this comes before the insertion:
    it holds also for an identifier the store already has, and the store
    is left as it was. *)
Theorem create_check_order
        (utcnow : datetime) (inserted_id : Bson.oid) (db : database)
        (msg expiration : string) (start teacher_username : option string)
        (H : recognized db teacher_username) :
  (expiration = EmptyString ->
   create_announcement utcnow inserted_id db msg expiration start
                       teacher_username
   = (Raise expiration_required, db)) /\
  (expiration <> EmptyString -> lacks_year expiration ->
   create_announcement utcnow inserted_id db msg expiration start
                       teacher_username
   = (Raise invalid_date_format, db)) /\
  (forall s,
      expiration <> EmptyString ->
      start = Some s -> s <> EmptyString -> lacks_year s ->
      create_announcement utcnow inserted_id db msg expiration start
                          teacher_username
      = (Raise invalid_date_format, db)) /\
  (forall s de ds,
      start = Some s ->
      fromisoformat_date expiration = Some de ->
      fromisoformat_date s = Some ds ->
      date_gt ds de = true ->
      create_announcement utcnow inserted_id db msg expiration start
                          teacher_username
      = (Raise start_after_expiration, db)).
Proof.
  unfold create_announcement. pass_authorization H.
  split; [|split; [|split]].
  - intros ->. reflexivity.
  - intros Hne Hexp. rewrite (truthy_str_true _ Hne).
    now rewrite (validate_dates_lacks_year _ _ (or_introl Hexp)).
  - intros s Hne -> Hs Hbad. rewrite (truthy_str_true _ Hne).
    rewrite (validate_dates_lacks_year expiration (Some s)); [reflexivity|].
    right. exists s. auto.
  - intros s de ds -> Hde Hds Hgt.
    rewrite (fromisoformat_date_truthy _ _ Hde). simpl negb. cbv iota.
    now rewrite (validate_dates_start_after _ _ _ _ Hde Hds Hgt).
Qed.

Lemma create_check_order_witness :
  recognized one_announcement (Some "t1") /\
  create_announcement morning oid_a one_announcement "Exam Friday"
                      EmptyString (Some "not-a-date") (Some "t1")
  = (Raise expiration_required, one_announcement) /\
  create_announcement morning oid_a one_announcement "Exam Friday"
                      "2025-12-31" (Some "not-a-date") (Some "t1")
  = (Raise invalid_date_format, one_announcement) /\
  create_announcement morning oid_a one_announcement "Exam Friday"
                      "2025-06-01" (Some "2025-06-10") (Some "t1")
  = (Raise start_after_expiration, one_announcement).
Proof.
  split; [apply t1_recognized|].
  split; [|split].
  - destruct (create_check_order morning oid_a one_announcement "Exam Friday"
                                 EmptyString (Some "not-a-date") (Some "t1")
                                 (t1_recognized [exam]))
      as (Hempty & _).
    apply Hempty. reflexivity.
  - destruct (create_check_order morning oid_a one_announcement "Exam Friday"
                                 "2025-12-31" (Some "not-a-date") (Some "t1")
                                 (t1_recognized [exam]))
      as (_ & _ & Hstart & _).
    apply (Hstart "not-a-date");
      [discriminate | reflexivity | discriminate | reflexivity].
  - destruct (create_check_order morning oid_a one_announcement "Exam Friday"
                                 "2025-06-01" (Some "2025-06-10") (Some "t1")
                                 (t1_recognized [exam]))
      as (_ & _ & _ & Horder).
    apply (Horder "2025-06-10" (mkdate 2025 6 1) (mkdate 2025 6 10));
      reflexivity.
Defined.

(** ** The ordering check looks at days only *)




(** ** Newest first is latest first *)

Lemma zero_pad_compare (w : nat) (x y : N) (a b : string) :
  (x < 10 ^ N.of_nat w)%N -> (y < 10 ^ N.of_nat w)%N ->
  String.compare (zero_pad w x a) (zero_pad w y b) =
  match (x ?= y)%N with
  | Eq => String.compare a b
  | c => c
  end.
Proof.
  intros Hx Hy.
  pose proof (parse_digits_zero_pad w x a 0) as Px.
  pose proof (parse_digits_zero_pad w y b 0) as Py.
  rewrite N.mul_0_l, N.add_0_l, N.mod_small in Px, Py by assumption.
  exact (parse_digits_compare _ _ _ _ _ _ _ _ Px Py).
Qed.

Lemma string_compare_refl (s : string) : String.compare s s = Eq.
Proof.
  pose proof (String.compare_antisym s s) as H.
  destruct (String.compare s s); trivial; discriminate H.
Qed.

(** The optional [.ffffff] of two timestamps compares as the
    microseconds do. *)
Lemma fraction_compare (ua ub : N) :
  (ua < 1000000)%N -> (ub < 1000000)%N ->
  String.compare
    (if (ua =? 0)%N then EmptyString
     else String "." (zero_pad 6 ua EmptyString))
    (if (ub =? 0)%N then EmptyString
     else String "." (zero_pad 6 ub EmptyString))
  = (ua ?= ub)%N.
Proof.
  intros Ha Hb.
  destruct (N.eqb_spec ua 0) as [->|Na]; destruct (N.eqb_spec ub 0) as [->|Nb].
  - reflexivity.
  - cbn [String.compare]. symmetry. apply N.compare_lt_iff. lia.
  - cbn [String.compare]. symmetry. apply N.compare_gt_iff. lia.
  - cbn [String.compare]. change (Ascii.compare "." ".") with Eq. cbv iota.
    rewrite zero_pad_compare by assumption.
    now destruct (ua ?= ub)%N.
Qed.

(** X13: the [created_at] strings that create writes order as the clock
    readings they come from: for two valid readings, comparing the ISO
    timestamps as strings is comparing the moments, so the newest-first
    order of the listings is the order of creation, latest first. *)
Theorem created_at_order_is_chronological
        (a b : datetime)
        (Ha : valid_datetime a = true) (Hb : valid_datetime b = true) :
  String.compare (isoformat a) (isoformat b) = datetime_compare a b.
Proof.
  unfold valid_datetime, valid_time in Ha, Hb.
  rewrite !andb_true_iff, !N.ltb_lt in Ha, Hb.
  destruct Ha as (Vda & ((Hha & Hma) & Hsa) & Hua).
  destruct Hb as (Vdb & ((Hhb & Hmb) & Hsb) & Hub).
  apply valid_date_bounds in Vda, Vdb.
  unfold isoformat, date_isoformat_app, datetime_compare, date_compare.
  rewrite zero_pad_compare
    by (change (10 ^ N.of_nat 4)%N with 10000%N; lia).
  destruct (year (dt_date a) ?= year (dt_date b))%N; trivial.
  cbn [String.compare]. change (Ascii.compare "-" "-") with Eq. cbv iota.
  rewrite zero_pad_compare by (change (10 ^ N.of_nat 2)%N with 100%N; lia).
  destruct (month (dt_date a) ?= month (dt_date b))%N; trivial.
  cbn [String.compare]. change (Ascii.compare "-" "-") with Eq. cbv iota.
  rewrite zero_pad_compare by (change (10 ^ N.of_nat 2)%N with 100%N; lia).
  destruct (day (dt_date a) ?= day (dt_date b))%N; trivial.
  cbn [String.compare]. change (Ascii.compare "T" "T") with Eq. cbv iota.
  rewrite zero_pad_compare by (change (10 ^ N.of_nat 2)%N with 100%N; lia).
  destruct (hour a ?= hour b)%N; trivial.
  cbn [String.compare]. change (Ascii.compare ":" ":") with Eq. cbv iota.
  rewrite zero_pad_compare by (change (10 ^ N.of_nat 2)%N with 100%N; lia).
  destruct (minute a ?= minute b)%N; trivial.
  cbn [String.compare]. change (Ascii.compare ":" ":") with Eq. cbv iota.
  rewrite zero_pad_compare by (change (10 ^ N.of_nat 2)%N with 100%N; lia).
  destruct (second a ?= second b)%N; trivial.
  now apply fraction_compare.
Qed.

Lemma created_at_order_is_chronological_witness :
  valid_datetime morning = true /\
  valid_datetime (mkdatetime (mkdate 2025 6 1) 9 5 3 0) = true /\
  String.compare (isoformat (mkdatetime (mkdate 2025 6 1) 9 5 3 0))
                 (isoformat morning)
  = Lt.
Proof.
  split; [reflexivity|]. split; [reflexivity|].
  now rewrite (created_at_order_is_chronological
                 (mkdatetime (mkdate 2025 6 1) 9 5 3 0) morning
                 eq_refl eq_refl).
Defined.

(** ** Created announcements in the active listing *)

Lemma expiration_reached_iff (today de : date) (s : string) :
  valid_date today = true -> iso_calendar_date s = Some de ->
  (str_gte s (date_isoformat today) = true <-> date_le today de).
Proof.
  intros Hnow Hs. unfold str_gte.
  apply date_le_iff_leb; [now apply iso_calendar_date_isoformat | exact Hs].
Qed.

Lemma start_reached_iff (today ds : date) (s : string) :
  valid_date today = true -> iso_calendar_date s = Some ds ->
  (starts_in_future (Some s) (date_isoformat today) = false
   <-> date_le ds today).
Proof.
  intros Hnow Hs. unfold starts_in_future, str_gt.
  rewrite (date_gt_iff_ltb _ _ _ _ Hs (iso_calendar_date_isoformat _ Hnow)).
  rewrite (fromisoformat_date_truthy s ds)
    by now apply fromisoformat_iso_calendar_date.
  reflexivity.
Qed.

(** X14: an announcement a recognized teacher creates with ISO calendar
    dates appears in list-active, on any later reading of the clock,
    exactly on the days of its window: from its start date, if it has one,
    to its expiration date, both included. *)
Theorem created_announcement_is_listed_in_its_window
        (utcnow later : datetime) (inserted_id : Bson.oid) (db : database)
        (msg expiration : string) (start teacher_username : option string)
        (de : date)
        (H : recognized db teacher_username)
        (Hfresh : no_match inserted_id (announcements_collection db))
        (Hexp : iso_calendar_date expiration = Some de)
        (Hstart : match start with
                  | Some s => exists ds, iso_calendar_date s = Some ds /\
                                         date_le ds de
                  | None => True
                  end)
        (Hlater : valid_date (date_of later) = true) :
  exists r db1,
    create_announcement utcnow inserted_id db msg expiration start
                        teacher_username = (Return r, db1) /\
    (In r (get_active_announcements later db1) <->
     date_le (date_of later) de /\
     match start with
     | Some s => exists ds, iso_calendar_date s = Some ds /\
                            date_le ds (date_of later)
     | None => True
     end).
Proof.
  set (doc := created_document utcnow inserted_id msg expiration start
                               teacher_username).
  exists (stringify_id doc),
    (with_announcements db (announcements_collection db ++ [doc])%list).
  split.
  - apply create_announcement_success; trivial.
    exists de. split; [now apply fromisoformat_iso_calendar_date|].
    destruct start as [s|]; [|exact I]. right.
    destruct Hstart as (ds & Hds & Hle). exists ds.
    split; [now apply fromisoformat_iso_calendar_date | exact Hle].
  - rewrite listed_active_iff
      by (cbn [announcements_collection with_announcements];
          apply in_or_app; right; now left).
    change (expiration_date doc) with expiration.
    change (start_date doc) with start.
    rewrite (expiration_reached_iff _ _ _ Hlater Hexp).
    destruct start as [s|].
    + destruct Hstart as (ds & Hds & _).
      rewrite (start_reached_iff _ _ _ Hlater Hds). split.
      * intros [Hle Hs]. split; [exact Hle | now exists ds].
      * intros [Hle (ds' & Hds' & Hs)]. split; [exact Hle | congruence].
    + simpl. tauto.
Qed.

Lemma created_announcement_is_listed_in_its_window_witness :
  exists r db1,
    create_announcement morning oid_b one_announcement "Science fair"
                        "2025-06-01" (Some "2025-05-30") (Some "t1")
    = (Return r, db1) /\
    In r (get_active_announcements morning db1).
Proof.
  destruct (created_announcement_is_listed_in_its_window
              morning morning oid_b one_announcement "Science fair"
              "2025-06-01" (Some "2025-05-30") (Some "t1") (mkdate 2025 6 1)
              (t1_recognized [exam]))
    as (r & db1 & Hc & Hiff).
  - intros d [<-|[]]. discriminate.
  - reflexivity.
  - exists (mkdate 2025 5 30). split; reflexivity.
  - reflexivity.
  - exists r, db1. split; [exact Hc|]. apply Hiff. split; [reflexivity|].
    exists (mkdate 2025 5 30). split; reflexivity.
Defined.

(** X15: both ends of the window are included.  A stored announcement
    whose expiration date is the string of the current UTC day is still
    listed by list-active, also when its start date is that same
    string. *)
Theorem window_ends_are_included
        (utcnow : datetime) (db : database) (d : document)
        (Hin : In d (announcements_collection db))
        (Hexp : expiration_date d = date_isoformat (date_of utcnow))
        (Hstart : start_date d = None \/
                  start_date d = Some (date_isoformat (date_of utcnow))) :
  In (stringify_id d) (get_active_announcements utcnow db).
Proof.
  apply listed_active_iff; [exact Hin|].
  rewrite Hexp. unfold str_gte, String.leb.
  rewrite string_compare_refl. split; [reflexivity|].
  destruct Hstart as [-> | ->]; [reflexivity|].
  unfold starts_in_future, str_gt, String.ltb.
  rewrite string_compare_refl. apply andb_false_r.
Qed.

Lemma window_ends_are_included_witness :
  In (stringify_id fair) (get_active_announcements morning two_announcements).
Proof.
  apply window_ends_are_included.
  - right. now left.
  - reflexivity.
  - now left.
Defined.

(** ** Order of the checks of delete *)

(** X16: for a recognized caller, delete refuses an identifier that is no
    [ObjectId] with the 400 invalid-identifier error before it looks at the
    store, which it leaves as it was; in particular every identifier that
    is not twenty-four characters long is refused so, by delete and by
    update alike. *)
Theorem delete_check_order
        (db : database) (announcement_id : string)
        (teacher_username : option string)
        (H : recognized db teacher_username) :
  (Bson.ObjectId announcement_id = None ->
   delete_announcement db announcement_id teacher_username
   = (Raise invalid_id, db)) /\
  (String.length announcement_id <> 24 ->
   delete_announcement db announcement_id teacher_username
   = (Raise invalid_id, db) /\
   forall msg expiration start,
     update_announcement db announcement_id msg expiration start
                         teacher_username
     = (Raise invalid_id, db)).
Proof.
  assert (Hlen : String.length announcement_id <> 24 ->
                 Bson.ObjectId announcement_id = None).
  { intros Hne. unfold Bson.ObjectId.
    apply Nat.eqb_neq in Hne. now rewrite Hne. }
  unfold delete_announcement, update_announcement. pass_authorization H.
  split.
  - intros ->. reflexivity.
  - intros Hne. rewrite (Hlen Hne). split; reflexivity.
Qed.

Lemma delete_check_order_witness :
  recognized one_announcement (Some "t1") /\
  delete_announcement one_announcement "42" (Some "t1")
  = (Raise invalid_id, one_announcement).
Proof.
  split; [apply t1_recognized|].
  destruct (delete_check_order one_announcement "42" (Some "t1")
                               (t1_recognized [exam])) as (_ & Hlen).
  apply Hlen. discriminate.
Defined.

(** ** Updated and deleted announcements in the listings *)

(** X17: the dates an update writes are the ones list-active goes by
    afterwards.  After a successful update with ISO calendar dates, the
    record update returned is listed, on a given day, exactly when that
    day lies between the new start date, if any, and the new expiration
    date, both included. *)
Theorem updated_announcement_is_listed_in_its_new_window
        (later : datetime) (db db' : database)
        (announcement_id msg expiration : string)
        (start teacher_username : option string) (r : response) (de : date)
        (Hupd : update_announcement db announcement_id msg expiration start
                                    teacher_username = (Return r, db'))
        (Hexp : iso_calendar_date expiration = Some de)
        (Hstart : match start with
                  | Some s => exists ds, iso_calendar_date s = Some ds
                  | None => True
                  end)
        (Hlater : valid_date (date_of later) = true) :
  In r (get_active_announcements later db') <->
  date_le (date_of later) de /\
  match start with
  | Some s => exists ds, iso_calendar_date s = Some ds /\
                         date_le ds (date_of later)
  | None => True
  end.
Proof.
  destruct (update_announcement_cases db announcement_id msg expiration
                                      start teacher_username)
    as [(e & Heq & _)
       | (o & l1 & d & l2 & _ & _ & _ & _ & _ & _ & Heq)];
    rewrite Heq in Hupd; [discriminate Hupd|].
  injection Hupd as <- <-.
  set (d' := updated_document d msg expiration start).
  rewrite listed_active_iff
    by (cbn [announcements_collection with_announcements]; apply in_elt).
  change (expiration_date d') with expiration.
  change (start_date d') with start.
  rewrite (expiration_reached_iff _ _ _ Hlater Hexp).
  destruct start as [s|].
  - destruct Hstart as (ds & Hds).
    rewrite (start_reached_iff _ _ _ Hlater Hds). split.
    + intros [Hle Hs]. split; [exact Hle | now exists ds].
    + intros [Hle (ds' & Hds' & Hs)]. split; [exact Hle | congruence].
  - simpl. tauto.
Qed.

Lemma updated_announcement_is_listed_in_its_new_window_witness :
  exists r db',
    update_announcement one_announcement "0123456789abcdef01234567"
                        "Exam Friday" "2025-05-31" None (Some "t1")
    = (Return r, db') /\
    In (stringify_id exam)
       (get_active_announcements morning one_announcement) /\
    ~ In r (get_active_announcements morning db').
Proof.
  eexists. eexists. split; [reflexivity|]. split; [now left|].
  intros Hin.
  apply (updated_announcement_is_listed_in_its_new_window
           morning one_announcement _ "0123456789abcdef01234567"
           "Exam Friday" "2025-05-31" None (Some "t1") _ (mkdate 2025 5 31)
           eq_refl eq_refl I eq_refl) in Hin.
  destruct Hin as [Hle _]. discriminate Hle.
Defined.

Lemma str_injective (a b : Bson.oid) : Bson.str a = Bson.str b -> a = b.
Proof.
  intros Heq. pose proof (fromhex_str a) as Ha.
  rewrite Heq, fromhex_str in Ha. now injection Ha.
Qed.

(** X18: in a store with unique identifiers, an announcement that delete
    removed is in neither listing afterwards: no entry of list-active, and
    for a recognized caller no entry of list-all, carries the identifier
    that was deleted. *)
Theorem deleted_announcement_is_no_longer_listed
        (db db' : database) (announcement_id : string)
        (teacher_username : option string) (m : string) (o : Bson.oid)
        (Hunique : unique_ids (announcements_collection db))
        (Hdel : delete_announcement db announcement_id teacher_username
                = (Return m, db'))
        (Hid : Bson.ObjectId announcement_id = Some o) :
  (forall utcnow r,
      In r (get_active_announcements utcnow db') -> _id r <> Bson.str o) /\
  exists l,
    get_all_announcements db' teacher_username = Return l /\
    forall r, In r l -> _id r <> Bson.str o.
Proof.
  destruct (delete_announcement_cases db announcement_id teacher_username)
    as [(e & Heq & _) | (o' & l1 & d & l2 & H & Ho & Hc & Hno & Hd & Heq)];
    rewrite Heq in Hdel; [discriminate Hdel|].
  injection Hdel as _ <-.
  assert (Eo : o = o') by congruence. rewrite Eo. clear Eo Hid o.
  rename o' into o.
  assert (Hgone : no_match o (l1 ++ l2)%list).
  { rewrite Hc in Hunique.
    now apply unique_ids_no_match_rest with (d := d). }
  assert (Hstored : forall x, In x (l1 ++ l2)%list ->
                              _id (stringify_id x) <> Bson.str o).
  { intros x Hx Heq'. apply str_injective in Heq'. exact (Hgone x Hx Heq'). }
  split.
  - intros utcnow r Hr. rewrite get_active_announcements_eq in Hr.
    apply in_map_iff in Hr. destruct Hr as (x & <- & Hx).
    apply in_active_cursor in Hx. apply Hstored. tauto.
  - eexists. split.
    + apply get_all_announcements_eq. exact H.
    + intros r Hr. apply in_map_iff in Hr. destruct Hr as (x & <- & Hx).
      apply sort_desc_in in Hx. now apply Hstored.
Qed.

Lemma deleted_announcement_is_no_longer_listed_witness :
  unique_ids (announcements_collection two_announcements) /\
  exists db',
    delete_announcement two_announcements "0123456789abcdef01234567"
                        (Some "t1")
    = (Return "Announcement deleted successfully", db') /\
    forall r, In r (get_active_announcements morning db') ->
              _id r <> "0123456789abcdef01234567".
Proof.
  assert (Hu : unique_ids (announcements_collection two_announcements)).
  { repeat constructor; simpl; [intros [E|[]]; discriminate E | tauto]. }
  split; [exact Hu|].
  eexists. split; [reflexivity|].
  intros r Hr.
  exact (proj1 (deleted_announcement_is_no_longer_listed
                  two_announcements _ "0123456789abcdef01234567" (Some "t1")
                  _ oid_a Hu eq_refl eq_refl) morning r Hr).
Defined.
